(** * AutoInvest: the allocation pipeline and the pages that display it

    A shallow embedding of the code the specification's claims rest on:

    - the React pages of [frontend/web/src/pages] (dashboard insights,
      drift check and stat cards, portfolio percentages, insights and
      loading, the analysis page's popular-asset list and search, the
      deposit and withdrawal handlers, the registration form);
    - the session code around them ([store/authStore.js], the
      interceptors of [services/api.js], [components/ProtectedRoute.jsx]);
    - the Python services sketched in [plans/] (the sliding-window
      [RateLimiter], [MarketDataService.get_quote] and
      [get_batch_quotes], [PortfolioOptimizer],
      [QlibService.prepare_data],
      [PortfolioOptimizationPipeline.optimize]).

    Each module states how it reads the numbers of its part: JavaScript
    numbers as binary64 values, the rate limiter's clock as integer ticks,
    the weights of the optimizer as exact rationals.

    JavaScript numbers are IEEE 754 binary64 values and are embedded as
    Rocq's primitive [float]s, so [NaN], signed zeros, infinities and
    rounding behave as in the browser.  A numeric field that is missing
    from an API object ([undefined]) behaves like [NaN] in every
    comparison, arithmetic operation and truthiness test the pages perform,
    and is represented by [nan]. *)

From Stdlib Require Import ZArith QArith Qabs Lia Floats Uint63 Bool Sorted.
From stdpp Require Import base option list strings gmap.

#[local] Set Warnings "-inexact-float".
#[local] Open Scope Z_scope.

(* ===================================================================== *)
(** ** JavaScript number semantics *)
(* ===================================================================== *)

Module Js.

(** [Number.isNaN]: the only value different from itself. *)
Definition is_nan (x : float) : bool := negb (x =? x)%float.

(** Truthiness of a number: everything but [NaN], [+0] and [-0]. *)
Definition truthy (x : float) : bool := negb (is_nan x || (x =? 0)%float).

(** [x || d] on numbers. *)
Definition num_or (x d : float) : float := if truthy x then x else d.

(** [-0] is the one zero whose reciprocal is negative. *)
Definition is_neg_zero (x : float) : bool :=
  ((x =? 0) && (1 / x <? 0))%float.

(** [Math.min(x, y)]: [NaN] if either is, and [-0] below [+0]. *)
Definition Math_min (x y : float) : float :=
  if is_nan x || is_nan y then nan
  else if (y <? x)%float then y
  else if (x <? y)%float then x
  else if is_neg_zero y then y else x.

(** [Math.max(x, y)]: [NaN] if either is, and [+0] above [-0]. *)
Definition Math_max (x y : float) : float :=
  if is_nan x || is_nan y then nan
  else if (x <? y)%float then y
  else if (y <? x)%float then x
  else if is_neg_zero x then y else x.

(** [array.length] as a number. *)
Definition length_num {A} (l : list A) : float :=
  PrimFloat.of_uint63 (Uint63.of_Z (Z.of_nat (length l))).

(** An integer below 2^53 as a number. *)
Definition of_Z (n : Z) : float := PrimFloat.of_uint63 (Uint63.of_Z n).

(** [Math.floor]: a number whose binary exponent is not negative is an
    integer already; otherwise the mantissa is shifted right, rounding
    towards minus infinity. *)
Definition Math_floor (x : float) : float :=
  match Prim2SF x with
  | S754_finite s m e =>
      if 0 <=? e then x
      else
        let q := Z.shiftr (Z.pos m) (- e) in
        let exact := Z.shiftl q (- e) =? Z.pos m in
        if s then (- of_Z (if exact then q else q + 1))%float
        else of_Z q
  | _ => x
  end.

(** [Math.round]: the nearest integer, ties towards plus infinity, and
    [-0] for arguments in [[-0.5, -0]]. *)
Definition Math_round (x : float) : float :=
  let r := Math_floor x in
  let n := if (0.5 <=? x - r)%float then (r + 1)%float else r in
  if ((n =? 0) && ((x <? 0) || is_neg_zero x))%float then (-0)%float else n.

(** Case analysis on the sign of a number, through the specification of
    the primitive comparisons. *)
Lemma not_positive_cases (x : float) :
  (0 <? x)%float = false ->
  is_nan x = true \/ (x =? 0)%float = true \/ (x <=? 0)%float = true.
Proof.
  unfold is_nan.
  rewrite FloatAxioms.ltb_spec, !FloatAxioms.eqb_spec, FloatAxioms.leb_spec.
  change (Prim2SF 0) with (S754_zero false).
  destruct (Prim2SF x) as [s|s| |s m e]; try destruct s; cbn;
    intros H; try discriminate H; auto.
Qed.

Lemma positive_not_zero (x : float) :
  (0 <? x)%float = true -> (x =? 0)%float = false /\ is_nan x = false.
Proof.
  unfold is_nan.
  rewrite FloatAxioms.ltb_spec, !FloatAxioms.eqb_spec.
  change (Prim2SF 0) with (S754_zero false).
  destruct (Prim2SF x) as [s|s| |s m e]; try destruct s; cbn;
    intros H; try discriminate H; split; try reflexivity.
  all: unfold SFeqb, SFcompare; rewrite ?Z.compare_refl, ?Pos.compare_refl;
    reflexivity.
Qed.

Lemma positive_not_le (x : float) :
  (0 <? x)%float = true -> (x <=? 0)%float = false.
Proof.
  rewrite FloatAxioms.ltb_spec, FloatAxioms.leb_spec.
  change (Prim2SF 0) with (S754_zero false).
  destruct (Prim2SF x) as [s|s| |s m e]; try destruct s; cbn;
    intros H; try discriminate H; reflexivity.
Qed.

End Js.

(* ===================================================================== *)
(** ** Objects served by the backend API *)
(* ===================================================================== *)

Module Api.

(** A holding of a portfolio, with the fields the pages read. *)
Record holding : Type := Holding {
  symbol : string;
  asset_type : string;
  weight : float;
  quantity : float;
  avg_price : float;
  current_price : float;
  predicted_return : float;
  confidence_score : float;
  signal_strength : string
}.

(** A portfolio; [holdings] is [None] when the field is absent. *)
Record portfolio : Type := Portfolio {
  portfolio_id : float;
  name : string;
  total_value : float;
  volatility : float;
  holdings : option (list holding)
}.

End Api.

(* ===================================================================== *)
(** ** pages/Dashboard.jsx *)
(* ===================================================================== *)

Module Dashboard.
Import Api.

Inductive insight_type : Type := Info | Action | Opportunity | Warning.

Record insight : Type := Insight {
  title : string;
  description : string;
  confidence : float;
  type : insight_type
}.

Definition is_action (i : insight) : bool :=
  match type i with Action => true | _ => false end.

(** The rebalancing recommendations of an insight list: the entries of
    type ['action']. *)
Definition rebalance_count (l : list insight) : nat :=
  length (List.filter is_action l).

(** The part of the component state [fetchPortfolioData] writes. *)
Record state : Type := State {
  portfolios : list portfolio;
  totalValue : float;
  totalReturn : float;
  aiInsights : list insight;
  isLoading : bool
}.

(** What [portfolioApi.getAll()] resolves to: a rejected promise, or a
    response whose [data] is absent or an array of portfolios. *)
Inductive response : Type :=
| Rejected
| Resolved (data : option (list portfolio)).

Section Builtins.

(** [Number.prototype.toFixed], used only inside message texts. *)
Variable toFixed : float -> nat -> string.

Definition welcome : insight :=
  {| title := "Welcome to AutoInvest";
     description :=
       "Create your first portfolio to get personalized AI insights.";
     confidence := 100;
     type := Info |}.

(** [portfolio.holdings.reduce((sum, h) => sum + h.weight, 0)] *)
Definition totalWeight (hs : list holding) : float :=
  fold_left (fun sum h => (sum + weight h)%float) hs 0%float.

(** [Math.abs(totalWeight - 1.0)] *)
Definition drift (hs : list holding) : float :=
  PrimFloat.abs (totalWeight hs - 1.0)%float.

Definition rebalancing (p : portfolio) (d : float) : insight :=
  {| title := "Rebalancing Recommended: " +:+ name p;
     description :=
       "Portfolio drift detected at " +:+ toFixed (d * 100)%float 1 +:+
       "%. Rebalancing could improve risk-adjusted returns.";
     confidence := Js.Math_min 95 (70 + d * 100)%float;
     type := Action |}.

Definition strong_buy (h : holding) : insight :=
  {| title := "Strong Buy Signal: " +:+ symbol h;
     description :=
       "AI predicts " +:+ toFixed (predicted_return h * 100)%float 1 +:+
       "% return with " +:+ toFixed (confidence_score h * 100)%float 0 +:+
       "% confidence.";
     confidence := (confidence_score h * 100)%float;
     type := Opportunity |}.

(** Body of the inner [portfolio.holdings.forEach]. *)
Definition signal_step (insights : list insight) (h : holding)
  : list insight :=
  if ((0.8 <? confidence_score h) && (0.1 <? predicted_return h))%float
  then insights ++ [strong_buy h]
  else insights.

(** Body of the outer [portfolios.forEach]: [insights] is the array
    being pushed to. *)
Definition portfolio_step (insights : list insight) (p : portfolio)
  : list insight :=
  match holdings p with
  | Some ((_ :: _) as hs) =>
      let d := drift hs in
      let insights :=
        if (0.05 <? d)%float then insights ++ [rebalancing p d]
        else insights in
      fold_left signal_step hs insights
  | _ => insights
  end.

Definition volatility_warning : insight :=
  {| title := "Elevated Volatility Detected";
     description :=
       "Your portfolios are experiencing higher than normal volatility. "
       +:+ "Consider defensive positioning.";
     confidence := 75;
     type := Warning |}.

(** [portfolios.reduce((sum, p) => sum + (p.volatility || 0), 0)
     / portfolios.length] *)
Definition avgVolatility (ps : list portfolio) : float :=
  (fold_left (fun sum p => sum + Js.num_or (volatility p) 0) ps 0
   / Js.length_num ps)%float.

(** Every insight collected before the final [slice(0, 3)]. *)
Definition collected (ps : list portfolio) : list insight :=
  let insights := fold_left portfolio_step ps [] in
  if (0.2 <? avgVolatility ps)%float
  then insights ++ [volatility_warning]
  else insights.

(** [generateAiInsights(portfolios)]: the value handed to
    [setAiInsights]. *)
Definition generateAiInsights (ps : option (list portfolio))
  : list insight :=
  match ps with
  | None | Some [] => [welcome]
  | Some ps => take 3 (collected ps)
  end.

(** The two accumulators of [fetchPortfolioData]. *)
Definition add_value (value : float) (p : portfolio) : float :=
  (value + Js.num_or (total_value p) 0)%float.

Definition add_return (returnValue : float) (h : holding) : float :=
  let cost := (avg_price h * quantity h)%float in
  let current := (current_price h * quantity h)%float in
  (returnValue + (current - cost))%float.

Definition add_returns (returnValue : float) (p : portfolio) : float :=
  match holdings p with
  | Some hs => fold_left add_return hs returnValue
  | None => returnValue
  end.

(** [fetchPortfolioData], given what the API call resolves to. *)
Definition fetchPortfolioData (st : state) (r : response) : state :=
  match r with
  | Resolved (Some data) =>
      {| portfolios := data;
         totalValue := fold_left add_value data 0%float;
         totalReturn := fold_left add_returns data 0%float;
         aiInsights := generateAiInsights (Some data);
         isLoading := false |}
  | Resolved None | Rejected =>
      {| portfolios := portfolios st;
         totalValue := totalValue st;
         totalReturn := totalReturn st;
         aiInsights := aiInsights st;
         isLoading := false |}
  end.

(** The refresh effect: one [fetchPortfolioData] on mount and one per
    60-second tick, each with its own API response. *)
Definition refresh (st : state) (rs : list response) : state :=
  fold_left fetchPortfolioData rs st.

(** The lists passed to [setAiInsights] over a run of refreshes, one per
    refresh that reaches [generateAiInsights]. *)
Definition emitted (rs : list response) : list (list insight) :=
  omap (fun r => match r with
                 | Resolved (Some data) =>
                     Some (generateAiInsights (Some data))
                 | _ => None
                 end) rs.

(** Whether the dashboard's drift test fires for a portfolio. *)
Definition drifted (p : portfolio) : bool :=
  match holdings p with
  | Some ((_ :: _) as hs) => (0.05 <? drift hs)%float
  | _ => false
  end.

(** The specification's aggregate drift, in its own words: the sum over
    assets of the absolute difference between current and target
    weight. *)
Definition aggregate_drift_spec (current target : list float) : float :=
  fold_left (fun sum ct => (sum + PrimFloat.abs (ct.1 - ct.2))%float)
    (zip current target) 0%float.

(** *** Counting rebalancing recommendations *)

Lemma rebalance_count_app (l1 l2 : list insight) :
  rebalance_count (l1 ++ l2) = (rebalance_count l1 + rebalance_count l2)%nat.
Proof.
  unfold rebalance_count. rewrite List.filter_app. apply length_app.
Qed.

Lemma rebalance_count_take (n : nat) (l : list insight) :
  (rebalance_count (take n l) <= rebalance_count l)%nat.
Proof.
  rewrite <- (take_drop n l) at 2. rewrite rebalance_count_app. lia.
Qed.

Lemma signal_steps_count (hs : list holding) (insights : list insight) :
  rebalance_count (fold_left signal_step hs insights)
  = rebalance_count insights.
Proof.
  revert insights. induction hs as [|h hs IH]; intros insights;
    cbn [fold_left].
  - reflexivity.
  - rewrite IH. unfold signal_step.
    destruct (_ && _); [|reflexivity].
    rewrite rebalance_count_app. cbn. lia.
Qed.

Lemma portfolio_step_count (insights : list insight) (p : portfolio) :
  rebalance_count (portfolio_step insights p)
  = (rebalance_count insights + if drifted p then 1 else 0)%nat.
Proof.
  unfold portfolio_step, drifted.
  destruct (holdings p) as [[|h hs]|]; cbv beta iota zeta; try lia.
  rewrite signal_steps_count.
  destruct (0.05 <? drift (h :: hs))%float; [|lia].
  rewrite rebalance_count_app. reflexivity.
Qed.

Lemma portfolio_steps_count (ps : list portfolio) (insights : list insight) :
  rebalance_count (fold_left portfolio_step ps insights)
  = (rebalance_count insights + length (List.filter drifted ps))%nat.
Proof.
  revert insights. induction ps as [|p ps IH]; intros insights;
    cbn [fold_left List.filter].
  - cbn. lia.
  - rewrite IH, portfolio_step_count.
    destruct (drifted p); cbn; lia.
Qed.

Lemma collected_count (ps : list portfolio) :
  rebalance_count (collected ps) = length (List.filter drifted ps).
Proof.
  unfold collected. destruct (0.2 <? avgVolatility ps)%float.
  - rewrite rebalance_count_app, portfolio_steps_count. cbn. lia.
  - rewrite portfolio_steps_count. reflexivity.
Qed.

Lemma emitted_snoc (rs : list response) (r : response) :
  emitted (rs ++ [r])
  = emitted rs ++ match r with
                  | Resolved (Some data) => [generateAiInsights (Some data)]
                  | _ => []
                  end.
Proof.
  unfold emitted. rewrite omap_app. f_equal.
  destruct r as [|[data|]]; reflexivity.
Qed.

Lemma refresh_snoc (st : state) (rs : list response) (r : response) :
  refresh st (rs ++ [r]) = fetchPortfolioData (refresh st rs) r.
Proof. unfold refresh. apply fold_left_app. Qed.

Lemma generateAiInsights_length (ps : option (list portfolio)) :
  (length (generateAiInsights ps) <= 3)%nat.
Proof.
  destruct ps as [[|p ps]|]; cbn [generateAiInsights length]; try lia.
  rewrite length_take. lia.
Qed.

(** *** Evaluations over a run of refreshes *)

(** C3 (as amended): every drift evaluation is stateless.  The list
    shown after a run of refreshes is the one the latest evaluation
    produced (it replaces the earlier one, nothing accumulates); one
    evaluation collects exactly one rebalancing recommendation per
    portfolio whose drift test fires and none for the others, and
    keeps at most the first three insights, so it never shows more
    recommendations than there are drifted portfolios. *)
Theorem evaluation_is_stateless (st : state) (rs : list response) :
  aiInsights (refresh st rs) = default (aiInsights st) (last (emitted rs))
  /\ Forall (fun l => (length l <= 3)%nat) (emitted rs)
  /\ forall data : list portfolio,
       rebalance_count (collected data) = length (List.filter drifted data)
       /\ (rebalance_count (generateAiInsights (Some data))
           <= length (List.filter drifted data))%nat.
Proof.
  split; [|split].
  - induction rs as [|r rs IH] using rev_ind; [reflexivity|].
    rewrite refresh_snoc, emitted_snoc.
    destruct r as [|[data|]]; cbn [fetchPortfolioData aiInsights].
    + rewrite app_nil_r. exact IH.
    + rewrite last_snoc. reflexivity.
    + rewrite app_nil_r. exact IH.
  - unfold emitted. induction rs as [|r rs IH]; cbn [omap list_omap].
    + constructor.
    + destruct r as [|[data|]]; try exact IH.
      constructor; [apply generateAiInsights_length | exact IH].
  - intros data. split; [apply collected_count|].
    destruct data as [|p ps]; [cbn; lia|].
    cbn [generateAiInsights]. rewrite <- collected_count.
    apply rebalance_count_take.
Qed.

End Builtins.

(** *** Concrete portfolios *)

Definition no_text : float -> nat -> string := fun _ _ => "".

Definition asset (s : string) (w : float) : holding :=
  {| symbol := s; asset_type := "stock"; weight := w; quantity := 10;
     avg_price := 100; current_price := 100;
     predicted_return := 0.02; confidence_score := 0.6;
     signal_strength := "hold" |}.

Definition with_weights (w1 w2 : float) : portfolio :=
  {| portfolio_id := 1; name := "Growth"; total_value := 2000;
     volatility := 0.1;
     holdings := Some [asset "AAA" w1; asset "BBB" w2] |}.

(** Weights 50% + 54%: the dashboard's drift is about 4%, below the
    threshold, and no recommendation is produced. *)
Example drift_4_percent :
  rebalance_count (generateAiInsights no_text (Some [with_weights 0.5 0.54]))
  = 0%nat.
Proof. vm_compute. reflexivity. Qed.

(** Weights 50% + 56%: about 6%, one recommendation. *)
Example drift_6_percent :
  rebalance_count (generateAiInsights no_text (Some [with_weights 0.5 0.56]))
  = 1%nat.
Proof. vm_compute. reflexivity. Qed.

(** C2, counterexample: current weights 75% / 25% against last-accepted
    targets 50% / 50%.  The sum of absolute per-asset differences is 0.5,
    far above 5%, yet the drift the dashboard computes is 0 and no
    recommendation is produced: the computed quantity is not the
    aggregate drift of the claim. *)
Lemma drift_ignores_targets :
  aggregate_drift_spec [0.75; 0.25]%float [0.5; 0.5]%float = 0.5%float
  /\ (0.05 <? 0.5)%float = true
  /\ holdings (with_weights 0.75 0.25)
     = Some [asset "AAA" 0.75; asset "BBB" 0.25]
  /\ drift [asset "AAA" 0.75; asset "BBB" 0.25] = 0%float
  /\ rebalance_count
       (generateAiInsights no_text (Some [with_weights 0.75 0.25]))
     = 0%nat.
Proof. vm_compute. repeat split; reflexivity. Qed.

(** C3, counterexample: the same portfolio, drifted by about 6%, is
    evaluated on two successive refreshes with no acknowledgement and no
    return to a stable state in between; each evaluation emits the
    rebalancing recommendation, two for the one episode. *)
Lemma second_evaluation_emits_again :
  map rebalance_count
    (emitted no_text [Resolved (Some [with_weights 0.5 0.56]);
                      Resolved (Some [with_weights 0.5 0.56])])
  = [1; 1]%nat.
Proof. vm_compute. reflexivity. Qed.

(** A holding with a strong signal. *)
Definition strong (s : string) (w : float) : holding :=
  {| symbol := s; asset_type := "stock"; weight := w; quantity := 10;
     avg_price := 100; current_price := 100;
     predicted_return := 0.2; confidence_score := 0.9;
     signal_strength := "strong_buy" |}.

(** Weights summing to 1, three strong signals. *)
Definition balanced : portfolio :=
  {| portfolio_id := 2; name := "Core"; total_value := 3000;
     volatility := 0.1;
     holdings := Some [strong "AAA" 0.5; strong "BBB" 0.25;
                       strong "CCC" 0.25] |}.

(** The second portfolio has drifted by 50%: its recommendation is
    collected, fourth, behind the three signals of the first portfolio,
    and the list handed to the page carries no recommendation. *)
Example recommendation_cut_off :
  rebalance_count (collected no_text [balanced; with_weights 0.5 1])
  = 1%nat
  /\ length (collected no_text [balanced; with_weights 0.5 1]) = 4%nat
  /\ rebalance_count
       (generateAiInsights no_text (Some [balanced; with_weights 0.5 1]))
     = 0%nat.
Proof. vm_compute. repeat split; reflexivity. Qed.

(** *** Where an insight comes from, and what a run of refreshes shows *)

Section Provenance.

Variable toFixed : float -> nat -> string.

(** The reason an insight of a non-empty portfolio list is there: a
    portfolio with holdings whose drift exceeds 0.05, a holding with
    confidence above 0.8 and predicted return above 0.1, or an average
    volatility above 0.2. *)
Definition caused_by (ps : list portfolio) (i : insight) : Prop :=
  (exists p hs,
      p ∈ ps /\ holdings p = Some hs /\ hs <> []
      /\ (0.05 <? drift hs)%float = true
      /\ i = rebalancing toFixed p (drift hs))
  \/ (exists p hs h,
        p ∈ ps /\ holdings p = Some hs /\ h ∈ hs
        /\ (0.8 <? confidence_score h)%float = true
        /\ (0.1 <? predicted_return h)%float = true
        /\ i = strong_buy toFixed h)
  \/ (i = volatility_warning /\ (0.2 <? avgVolatility ps)%float = true).

Lemma signal_steps_caused (ps : list portfolio) (p : portfolio)
    (all : list holding) (hs : list holding) (insights : list insight) :
  p ∈ ps -> holdings p = Some all -> (forall h, h ∈ hs -> h ∈ all) ->
  Forall (caused_by ps) insights ->
  Forall (caused_by ps) (fold_left (signal_step toFixed) hs insights).
Proof.
  intros Hp Hall. revert insights.
  induction hs as [|h hs IH]; intros insights Hin Hacc; cbn [fold_left];
    [exact Hacc|].
  apply IH; [intros h' Hh'; apply Hin; right; exact Hh'|].
  unfold signal_step.
  destruct (0.8 <? confidence_score h)%float eqn:Ec; [|exact Hacc].
  destruct (0.1 <? predicted_return h)%float eqn:Er; [|exact Hacc].
  cbn [andb]. apply Forall_app. split; [exact Hacc|].
  constructor; [|constructor].
  right. left. exists p, all, h. repeat split; auto. apply Hin. left.
Qed.

Lemma portfolio_steps_caused (all ps : list portfolio)
    (insights : list insight) :
  (forall p, p ∈ ps -> p ∈ all) ->
  Forall (caused_by all) insights ->
  Forall (caused_by all) (fold_left (portfolio_step toFixed) ps insights).
Proof.
  revert insights.
  induction ps as [|p ps IH]; intros insights Hin Hacc; cbn [fold_left];
    [exact Hacc|].
  apply IH; [intros p' Hp'; apply Hin; right; exact Hp'|].
  assert (Hp : p ∈ all) by (apply Hin; left).
  unfold portfolio_step.
  destruct (holdings p) as [[|h hs]|] eqn:Eh; try exact Hacc.
  cbv zeta.
  apply (signal_steps_caused all p (h :: hs)); auto.
  destruct (0.05 <? drift (h :: hs))%float eqn:Ed; [|exact Hacc].
  apply Forall_app. split; [exact Hacc|].
  constructor; [|constructor].
  left. exists p, (h :: hs). repeat split; auto.
Qed.

Lemma collected_caused (ps : list portfolio) :
  Forall (caused_by ps) (collected toFixed ps).
Proof.
  unfold collected.
  assert (H : Forall (caused_by ps) (fold_left (portfolio_step toFixed) ps []))
    by (apply portfolio_steps_caused; [auto | constructor]).
  destruct (0.2 <? avgVolatility ps)%float eqn:Ev; [|exact H].
  apply Forall_app. split; [exact H|].
  constructor; [|constructor]. right. right. split; [reflexivity|exact Ev].
Qed.

(** *** The drift check *)

(** C2 (as amended): the drift the dashboard evaluates for a portfolio
    is the absolute difference between the sum of its holdings' weights
    and 1 -- target weights are not consulted.  Visiting a portfolio
    collects exactly one rebalancing recommendation when the portfolio
    has at least one holding and that drift exceeds the fixed threshold
    0.05, and none otherwise.  A recommendation is shown only when that
    is so: every recommendation in the list handed to the page belongs to
    a portfolio of the response with holdings and a drift above 0.05.
    The converse fails for what is shown, since the list is cut to its
    first three insights: the recommendations collected are as many as
    the drifted portfolios, those shown at most as many. *)
Theorem drift_gate (insights : list insight) (p : portfolio)
    (data : list portfolio) :
  rebalance_count (portfolio_step toFixed insights p)
  = (rebalance_count insights
     + match holdings p with
       | Some ((_ :: _) as hs) =>
           if (0.05 <? PrimFloat.abs
                         (fold_left (fun sum h => sum + weight h) hs 0
                          - 1.0))%float
           then 1 else 0
       | _ => 0
       end)%nat
  /\ Forall (fun i =>
               is_action i = true ->
               exists q hs,
                 q ∈ data /\ holdings q = Some hs /\ hs <> []
                 /\ (0.05 <? PrimFloat.abs
                               (fold_left (fun sum h => sum + weight h) hs 0
                                - 1.0))%float = true
                 /\ i = rebalancing toFixed q
                          (PrimFloat.abs
                             (fold_left (fun sum h => sum + weight h) hs 0
                              - 1.0)%float))
       (generateAiInsights toFixed (Some data))
  /\ rebalance_count (collected toFixed data)
     = length (List.filter drifted data)
  /\ (rebalance_count (generateAiInsights toFixed (Some data))
      <= length (List.filter drifted data))%nat.
Proof.
  split; [|split; [|split]].
  - rewrite portfolio_step_count. unfold drifted, drift, totalWeight.
    destruct (holdings p) as [[|h hs]|]; reflexivity.
  - assert (H : Forall (fun i =>
                   is_action i = true ->
                   exists q hs,
                     q ∈ data /\ holdings q = Some hs /\ hs <> []
                     /\ (0.05 <? drift hs)%float = true
                     /\ i = rebalancing toFixed q (drift hs))
                  (collected toFixed data)).
    { eapply Forall_impl; [apply collected_caused|].
      intros i [Hd|[Hs|[-> _]]] Ha.
      - exact Hd.
      - destruct Hs as (q & hs & h & _ & _ & _ & _ & _ & ->).
        discriminate Ha.
      - discriminate Ha. }
    destruct data as [|q data].
    + constructor; [|constructor]. intros Ha. discriminate Ha.
    + cbn [generateAiInsights]. apply Forall_take. exact H.
  - apply collected_count.
  - destruct data as [|q data]; [cbn; lia|].
    cbn [generateAiInsights]. rewrite <- (collected_count toFixed).
    apply rebalance_count_take.
Qed.

(** Without portfolios the dashboard shows the welcome note and nothing
    else; with portfolios, every insight shown has its cause in the data:
    a drifted portfolio, a strong signal on a holding, or elevated
    average volatility. *)
Theorem insights_have_a_cause (data : option (list portfolio)) :
  match data with
  | None | Some [] => generateAiInsights toFixed data = [welcome]
  | Some ps => Forall (caused_by ps) (generateAiInsights toFixed data)
  end.
Proof.
  destruct data as [[|p ps]|]; try reflexivity.
  cbn [generateAiInsights]. apply Forall_take. unfold collected.
  assert (H : Forall (caused_by (p :: ps))
                (fold_left (portfolio_step toFixed) (p :: ps) []))
    by (apply portfolio_steps_caused; [auto | constructor]).
  destruct (0.2 <? avgVolatility (p :: ps))%float eqn:Ev; [|exact H].
  apply Forall_app. split; [exact H|].
  constructor; [|constructor]. right. right. split; [reflexivity|exact Ev].
Qed.

(** The responses of a run that carried data. *)
Definition successes (rs : list response) : list (list portfolio) :=
  omap (fun r => match r with
                 | Resolved (Some data) => Some data
                 | _ => None
                 end) rs.

(** After any run of refreshes the dashboard shows the latest response
    that carried data, and only that one: the totals are recomputed from
    zero, never added to those of an earlier refresh.  Rejected and empty
    responses in between change nothing but the loading flag. *)
Theorem refresh_shows_latest_response (st : state) (rs : list response) :
  match last (successes rs) with
  | Some data =>
      refresh toFixed st rs
      = {| portfolios := data;
           totalValue := fold_left add_value data 0%float;
           totalReturn := fold_left add_returns data 0%float;
           aiInsights := generateAiInsights toFixed (Some data);
           isLoading := false |}
  | None =>
      portfolios (refresh toFixed st rs) = portfolios st
      /\ totalValue (refresh toFixed st rs) = totalValue st
      /\ totalReturn (refresh toFixed st rs) = totalReturn st
      /\ aiInsights (refresh toFixed st rs) = aiInsights st
      /\ isLoading (refresh toFixed st rs)
         = match rs with [] => isLoading st | _ => false end
  end.
Proof.
  induction rs as [|r rs IH] using rev_ind; [repeat split|].
  rewrite refresh_snoc. unfold successes in *. rewrite omap_app.
  destruct r as [|[data|]]; cbn [omap list_omap].
  - rewrite app_nil_r.
    destruct (last (omap _ rs)) as [data|].
    + rewrite IH. reflexivity.
    + destruct IH as (H1 & H2 & H3 & H4 & _).
      cbn [fetchPortfolioData portfolios totalValue totalReturn aiInsights
           isLoading].
      repeat split; try assumption. destruct rs; reflexivity.
  - rewrite last_snoc. reflexivity.
  - rewrite app_nil_r.
    destruct (last (omap _ rs)) as [data|].
    + rewrite IH. reflexivity.
    + destruct IH as (H1 & H2 & H3 & H4 & _).
      cbn [fetchPortfolioData portfolios totalValue totalReturn aiInsights
           isLoading].
      repeat split; try assumption. destruct rs; reflexivity.
Qed.

End Provenance.

End Dashboard.

(* ===================================================================== *)
(** ** The portfolio page *)
(* ===================================================================== *)

Module PortfolioPage.
Import Api.

(** *** Evaluation that records the divisions it performs

    A computation yields its value together with the denominators of the
    divisions evaluated on the way, in order. *)
Definition logged (A : Type) : Type := (A * list float)%type.

Definition ret {A} (a : A) : logged A := (a, []).

Definition bind {A B} (m : logged A) (k : A -> logged B) : logged B :=
  let (b, ds) := k m.1 in (b, m.2 ++ ds).

Definition div (x y : float) : logged float := ((x / y)%float, [y]).

Definition value {A} (m : logged A) : A := m.1.
Definition denominators {A} (m : logged A) : list float := m.2.

#[local] Notation "'let*' x ':=' m 'in' k" := (bind m (fun x => k))
  (at level 10, x name, m at level 100, k at level 200).

(** [portfolio?.total_value || 0] *)
Definition totalValue (portfolio : option portfolio) : float :=
  Js.num_or (match portfolio with
             | Some p => total_value p
             | None => nan
             end) 0.

(** The reducer behind [dayChange]. *)
Definition add_change (sum : float) (h : holding) : float :=
  if String.eqb (symbol h) "CASH" then sum
  else
    let priceChange := ((current_price h - avg_price h) * quantity h)%float in
    (sum + priceChange)%float.

Definition dayChange (holdings : list holding) : float :=
  fold_left add_change holdings 0%float.

(** [totalValue > 0 ? (dayChange / totalValue) * 100 : 0] *)
Definition dayChangePct (dayChange totalValue : float) : logged float :=
  if (0 <? totalValue)%float
  then let* q := div dayChange totalValue in ret (q * 100)%float
  else ret 0%float.

(** [holding.avg_price > 0
      ? ((holding.current_price - holding.avg_price) / holding.avg_price) * 100
      : 0] *)
Definition returnPct (h : holding) : logged float :=
  if (0 <? avg_price h)%float
  then let* q := div (current_price h - avg_price h)%float (avg_price h) in
       ret (q * 100)%float
  else ret 0%float.

(** Every division evaluated while rendering the page: the day-change
    percentage, then one return percentage per row of the holdings
    table. *)
Definition page_denominators (portfolio : option portfolio)
    (holdings : list holding) : list float :=
  denominators (dayChangePct (dayChange holdings) (totalValue portfolio))
  ++ flat_map (fun h => denominators (returnPct h)) holdings.

(** *** AI insights *)

Inductive advice : Type := Buy | Reduce | Hold.

Record insight : Type := Insight {
  type : advice;
  insight_symbol : string;
  confidence : float;
  reason : string
}.

Section Builtins.

(** [Number.prototype.toFixed], used only inside the [reason] text. *)
Variable toFixed : float -> nat -> string.

(** The filter predicate:
    [h.symbol !== 'CASH' && h.confidence_score > 0.7]. *)
Definition eligible (h : holding) : bool :=
  negb (String.eqb (symbol h) "CASH")
  && (0.7 <? confidence_score h)%float.

(** The object the [map] callback builds for a holding. *)
Definition insight_of (h : holding) : insight :=
  {| type :=
       if (0.05 <? predicted_return h)%float then Buy
       else if (predicted_return h <? -0.05)%float then Reduce
       else Hold;
     insight_symbol := symbol h;
     confidence :=
       Js.Math_round (Js.num_or (confidence_score h) 0.5 * 100)%float;
     reason :=
       if (0.05 <? predicted_return h)%float
       then "Strong predicted return of "
            +:+ toFixed (predicted_return h * 100)%float 1 +:+ "%"
       else if (predicted_return h <? -0.05)%float
       then "Negative outlook with "
            +:+ toFixed (predicted_return h * 100)%float 1
            +:+ "% predicted return"
       else "Stable performance expected" |}.

(** [generateAiInsights()] over the page's [holdings] state, which is
    always an array. *)
Definition generateAiInsights (holdings : list holding) : list insight :=
  match holdings with
  | [] => []
  | _ => take 5 (List.map insight_of (List.filter eligible holdings))
  end.

(** Where an insight comes from: a holding that is not cash and whose
    confidence score exceeds 0.7. *)
Definition from_eligible (holdings : list holding) (i : insight) : Prop :=
  exists h : holding,
    h ∈ holdings /\ i = insight_of h /\ insight_symbol i = symbol h
    /\ symbol h <> "CASH" /\ (0.7 <? confidence_score h)%float = true.

Lemma eligible_spec (h : holding) :
  eligible h = true ->
  symbol h <> "CASH" /\ (0.7 <? confidence_score h)%float = true.
Proof.
  unfold eligible. intros [Hs Hc]%andb_true_iff. split; [|exact Hc].
  apply negb_true_iff, String.eqb_neq in Hs. exact Hs.
Qed.

Lemma mapped_from_eligible (holdings : list holding) :
  Forall (from_eligible holdings)
    (List.map insight_of (List.filter eligible holdings)).
Proof.
  assert (H : forall hs, (forall h, h ∈ hs -> h ∈ holdings) ->
             Forall (from_eligible holdings)
               (List.map insight_of (List.filter eligible hs))).
  { induction hs as [|h hs IH]; intros Hin; cbn [List.filter List.map].
    - constructor.
    - assert (Hrest : forall h', h' ∈ hs -> h' ∈ holdings)
        by (intros h' ?; apply Hin; right; assumption).
      destruct (eligible h) eqn:E; cbn [List.map]; [|auto].
      constructor; [|auto].
      destruct (eligible_spec h E) as [Hs Hc].
      exists h. repeat split; auto. apply Hin. left. }
  apply H. auto.
Qed.

Lemma insights_from_eligible (holdings : list holding) :
  Forall (from_eligible holdings) (generateAiInsights holdings).
Proof.
  unfold generateAiInsights. destruct holdings as [|h hs]; [constructor|].
  apply Forall_take, mapped_from_eligible.
Qed.

Lemma insights_length (holdings : list holding) :
  (length (generateAiInsights holdings) <= 5)%nat.
Proof.
  unfold generateAiInsights. destruct holdings as [|h hs]; [cbn; lia|].
  rewrite length_take. lia.
Qed.

End Builtins.

(** *** Division guards *)

Lemma dayChangePct_denominators (dc tv : float) :
  denominators (dayChangePct dc tv) = if (0 <? tv)%float then [tv] else [].
Proof. unfold dayChangePct. destruct (0 <? tv)%float; reflexivity. Qed.

Lemma returnPct_denominators (h : holding) :
  denominators (returnPct h)
  = if (0 <? avg_price h)%float then [avg_price h] else [].
Proof. unfold returnPct. destruct (0 <? avg_price h)%float; reflexivity. Qed.

(** What the guards [x > 0] establish about a denominator. *)
Definition safe_denominator (d : float) : Prop :=
  (0 <? d)%float = true /\ (d =? 0)%float = false /\ Js.is_nan d = false.

Lemma positive_safe (d : float) : (0 <? d)%float = true -> safe_denominator d.
Proof.
  intros H. destruct (Js.positive_not_zero d H). repeat split; assumption.
Qed.

(** C9 (as amended): every percentage computed on the portfolio page is
    division-guarded.  The day-change percentage is 0, with no division
    evaluated, unless the total portfolio value is positive; a holding's
    return percentage is 0, with no division evaluated, unless its
    average price is positive; so every denominator the page divides by
    is positive -- never zero of either sign, never [NaN]. *)
Theorem percentages_guarded (p : option portfolio) (hs : list holding) :
  ((0 <? totalValue p)%float = true
   \/ dayChangePct (dayChange hs) (totalValue p) = ret 0%float)
  /\ Forall (fun h => (0 <? avg_price h)%float = true
                      \/ returnPct h = ret 0%float) hs
  /\ Forall safe_denominator (page_denominators p hs).
Proof.
  split; [|split].
  - unfold dayChangePct. destruct (0 <? totalValue p)%float; auto.
  - induction hs as [|h hs IH]; constructor; [|exact IH].
    unfold returnPct. destruct (0 <? avg_price h)%float; auto.
  - unfold page_denominators. apply Forall_app. split.
    + rewrite dayChangePct_denominators.
      destruct (0 <? totalValue p)%float eqn:E; constructor;
        [apply positive_safe, E | constructor].
    + induction hs as [|h hs IH]; cbn [flat_map]; [constructor|].
      apply Forall_app. split; [|exact IH].
      rewrite returnPct_denominators.
      destruct (0 <? avg_price h)%float eqn:E; constructor;
        [apply positive_safe, E | constructor].
Qed.

(** *** A denominator next to zero *)

(** The smallest positive number, about 4.9e-324. *)
Definition tiny : float := 0x1p-1074%float.

Definition tiny_portfolio : portfolio :=
  {| portfolio_id := 1; name := "Dust"; total_value := tiny;
     volatility := 0.1; holdings := None |}.

Definition share (avg cur : float) : holding :=
  {| symbol := "AAA"; asset_type := "stock"; weight := 1; quantity := 1;
     avg_price := avg; current_price := cur;
     predicted_return := 0.02; confidence_score := 0.6;
     signal_strength := "hold" |}.

(** C9, counterexample: a total value (or an average price) of 5e-324 is
    positive, so the guard lets the division through: the page divides
    by a denominator next to zero and shows an infinite percentage. *)
Lemma near_zero_denominator_divided :
  (tiny <? 1e-300)%float = true
  /\ totalValue (Some tiny_portfolio) = tiny
  /\ dayChangePct (dayChange [share 1 2]) (totalValue (Some tiny_portfolio))
     = (infinity, [tiny])
  /\ returnPct (share tiny 2) = (infinity, [tiny]).
Proof. vm_compute. repeat split; reflexivity. Qed.

(** *** The day change skips cash *)

Definition non_cash (h : holding) : bool :=
  negb (String.eqb (symbol h) "CASH").

Lemma fold_add_change_filter (hs : list holding) (sum : float) :
  fold_left add_change hs sum
  = fold_left add_change (List.filter non_cash hs) sum.
Proof.
  revert sum. induction hs as [|h hs IH]; intros sum; [reflexivity|].
  cbn [fold_left List.filter]. unfold non_cash at 1.
  destruct (String.eqb (symbol h) "CASH") eqn:E; cbn [negb].
  - unfold add_change at 2. rewrite E. apply IH.
  - cbn [fold_left]. apply IH.
Qed.

(** Cash rows never count towards the day change: it is the day change
    of the other rows, wherever the cash rows stand in the table; and
    rows that are all cash give exactly 0. *)
Theorem dayChange_ignores_cash (hs : list holding) :
  dayChange hs = dayChange (List.filter non_cash hs)
  /\ dayChange (List.filter (fun h => String.eqb (symbol h) "CASH") hs)
     = 0%float.
Proof.
  split; [apply fold_add_change_filter|].
  unfold dayChange. generalize 0%float as sum.
  induction hs as [|h hs IH]; intros sum; [reflexivity|].
  cbn [List.filter].
  destruct (String.eqb (symbol h) "CASH") eqn:E; [|apply IH].
  cbn [fold_left]. unfold add_change at 2. rewrite E. apply IH.
Qed.

(** *** Loading the page *)

Module Fetch.

(** [performance]: the two fields the page reads. *)
Record performance_data : Type := Performance {
  total_return : float;
  total_return_pct : float
}.

(** The component state. *)
Record state : Type := State {
  portfolio : option Api.portfolio;
  holdings : list holding;
  isLoading : bool;
  performance : option performance_data
}.

(** The state of a freshly mounted page. *)
Definition mounted : state :=
  {| portfolio := None; holdings := []; isLoading := true;
     performance := None |}.

(** A settled request: rejected, or resolved with [response.data]
    ([None] when absent). *)
Inductive reply (A : Type) : Type :=
| Failed
| Replied (data : option A).
Arguments Failed {A}.
Arguments Replied {A} data.

Inductive effect : Type :=
| Log (message : string)
| ToastError (message : string).

Section Requests.

(** The route parameter [id], absent on the plain portfolio route. *)
Variable id : option string.

Variable getById : string -> reply Api.portfolio.
Variable getAll : reply (list Api.portfolio).

(** [portfolioApi.getPerformance], asked with the route parameter or
    with the first portfolio's id. *)
Variable getPerformance : string + float -> reply performance_data.

(** The two setters and the inner [try] for the performance data. *)
Definition show (st : state) (p : Api.portfolio) (key : string + float)
  : state * list effect :=
  let st := {| portfolio := Some p;
               holdings := default [] (Api.holdings p);
               isLoading := isLoading st;
               performance := performance st |} in
  match getPerformance key with
  | Replied data =>
      ({| portfolio := portfolio st; holdings := holdings st;
          isLoading := isLoading st; performance := data |}, [])
  | Failed => (st, [Log "Performance data not available"])
  end.

Definition set_loading (b : bool) (st : state) : state :=
  {| portfolio := portfolio st; holdings := holdings st; isLoading := b;
     performance := performance st |}.

(** [fetchPortfolioData]. *)
Definition fetchPortfolioData (st : state) : state * list effect :=
  let st := set_loading true st in
  let '(st, log) :=
    match id with
    | Some i =>
        match getById i with
        | Replied (Some p) => show st p (inl i)
        | Replied None => (st, [])
        | Failed => (st, [ToastError "Failed to load portfolio data"])
        end
    | None =>
        match getAll with
        | Replied (Some (firstPortfolio :: _)) =>
            show st firstPortfolio (inr (portfolio_id firstPortfolio))
        | Replied _ => (st, [])
        | Failed => (st, [ToastError "Failed to load portfolio data"])
        end
    end in
  (set_loading false st, log).

(** The rows shown are those of the portfolio shown. *)
Definition in_step (st : state) : Prop :=
  holdings st = match portfolio st with
                | Some p => default [] (Api.holdings p)
                | None => []
                end.

(** Whether the portfolio request itself was rejected. *)
Definition portfolio_request_failed : bool :=
  match id with
  | Some i => match getById i with Failed => true | _ => false end
  | None => match getAll with Failed => true | _ => false end
  end.

Definition is_toast (e : effect) : bool :=
  match e with ToastError _ => true | Log _ => false end.

Lemma show_in_step (st : state) (p : Api.portfolio) (key : string + float) :
  in_step (show st p key).1
  /\ portfolio (show st p key).1 = Some p
  /\ isLoading (show st p key).1 = isLoading st
  /\ List.filter is_toast (show st p key).2 = []
  /\ (getPerformance key = Failed ->
      performance (show st p key).1 = performance st).
Proof.
  unfold show, in_step.
  destruct (getPerformance key) as [|data]; cbn; repeat split; congruence.
Qed.

(** Loading keeps the rows in step with the portfolio shown, from the
    mounted page on and after any number of reloads. *)
Theorem fetch_keeps_rows_in_step (st : state) :
  in_step st -> in_step (fetchPortfolioData st).1.
Proof.
  intros Hst. unfold fetchPortfolioData.
  assert (Hkeep : in_step (set_loading false (set_loading true st)))
    by exact Hst.
  assert (Hshow : forall p key,
             in_step (set_loading false (show (set_loading true st) p key).1)).
  { intros p key.
    destruct (show_in_step (set_loading true st) p key) as [H _]. exact H. }
  destruct id as [i|].
  - destruct (getById i) as [|[p|]]; try exact Hkeep.
    specialize (Hshow p (inl i)).
    destruct (show (set_loading true st) p (inl i)). exact Hshow.
  - destruct getAll as [|[[|p ps]|]]; try exact Hkeep.
    specialize (Hshow p (inr (portfolio_id p))).
    destruct (show (set_loading true st) p (inr (portfolio_id p))).
    exact Hshow.
Qed.

(** Loading always ends with the spinner off.  The error toast appears
    exactly when the portfolio request itself is rejected, and then the
    page keeps what it showed.  A rejected performance request is only
    logged: the portfolio found is shown all the same, next to whatever
    performance data the page held before. *)
Theorem performance_failure_tolerated (st : state) :
  let r := fetchPortfolioData st in
  isLoading r.1 = false
  /\ List.filter is_toast r.2
     = (if portfolio_request_failed
        then [ToastError "Failed to load portfolio data"] else [])
  /\ (if portfolio_request_failed
      then r.1 = set_loading false st
      else True)
  /\ match id with
     | Some i =>
         forall p, getById i = Replied (Some p) ->
                   getPerformance (inl i) = Failed ->
                   portfolio r.1 = Some p
                   /\ performance r.1 = performance st
     | None =>
         forall p ps, getAll = Replied (Some (p :: ps)) ->
                      getPerformance (inr (portfolio_id p)) = Failed ->
                      portfolio r.1 = Some p
                      /\ performance r.1 = performance st
     end.
Proof.
  cbv zeta. unfold fetchPortfolioData, portfolio_request_failed.
  assert (Hshow : forall p key,
    let r := show (set_loading true st) p key in
    isLoading (set_loading false r.1) = false
    /\ List.filter is_toast r.2 = []
    /\ portfolio (set_loading false r.1) = Some p
    /\ (getPerformance key = Failed ->
        performance (set_loading false r.1) = performance st)).
  { intros p key. cbv zeta.
    destruct (show_in_step (set_loading true st) p key)
      as (_ & Hp & _ & Ht & Hperf).
    repeat split; assumption. }
  destruct id as [i|].
  - destruct (getById i) as [|[p|]] eqn:E.
    + repeat split; congruence.
    + specialize (Hshow p (inl i)). cbv zeta in Hshow.
      destruct (show (set_loading true st) p (inl i)) as [st' log].
      destruct Hshow as (Hl & Ht & Hp & Hperf).
      repeat split; cbn [fst snd] in *; try assumption; try congruence; auto.
    + repeat split; congruence.
  - destruct getAll as [|[[|p ps]|]] eqn:E.
    + repeat split; congruence.
    + repeat split; congruence.
    + specialize (Hshow p (inr (portfolio_id p))). cbv zeta in Hshow.
      destruct (show (set_loading true st) p (inr (portfolio_id p)))
        as [st' log].
      destruct Hshow as (Hl & Ht & Hp & Hperf).
      repeat split; cbn [fst snd] in *; try assumption; try congruence.
      match goal with
      | H : Replied (Some (p :: ps)) = Replied (Some (?q :: _)) |- _ =>
          assert (q = p) as -> by congruence
      end.
      auto.
    + repeat split; congruence.
Qed.

End Requests.

(** A first load of the plain route, with the performance request
    rejected. *)
Lemma fetch_keeps_rows_in_step_witness :
  in_step mounted
  /\ in_step
       (fetchPortfolioData None (fun _ => Failed)
          (Replied (Some [tiny_portfolio])) (fun _ => Failed) mounted).1.
Proof.
  split; [reflexivity|].
  apply (fetch_keeps_rows_in_step None (fun _ => Failed)
           (Replied (Some [tiny_portfolio])) (fun _ => Failed) mounted).
  reflexivity.
Defined.

End Fetch.

End PortfolioPage.

(* ===================================================================== *)
(** ** The dashboard's stat cards *)
(* ===================================================================== *)

Module DashboardStats.
Import PortfolioPage.

Section Builtins.

Variable toFixed : float -> nat -> string.

(** [change] of the card 'Total Portfolio Value';
    [initial_investment] is [userPreferences?.initial_investment]. *)
Definition value_change (totalValue initial_investment : float)
  : logged string :=
  if (0 <? totalValue)%float && Js.truthy initial_investment
  then bind (div (totalValue - initial_investment)%float initial_investment)
         (fun q => ret (toFixed (q * 100)%float 1 +:+ "%"))
  else ret "0%".

(** [change] of the card 'Total Return'. *)
Definition return_change (totalReturn totalValue : float) : logged string :=
  if (0 <? totalValue)%float
  then bind (div totalReturn totalValue)
         (fun q => ret (toFixed (q * 100)%float 1 +:+ "%"))
  else ret "0%".

(** Every division evaluated for the stat cards. *)
Definition card_denominators (totalValue totalReturn initial_investment : float)
  : list float :=
  denominators (value_change totalValue initial_investment)
  ++ denominators (return_change totalReturn totalValue).

Lemma positive_truthy (x : float) :
  (0 <? x)%float = true -> Js.truthy x = true.
Proof.
  intros H. destruct (Js.positive_not_zero x H) as [Hz Hn].
  unfold Js.truthy. rewrite Hz, Hn. reflexivity.
Qed.

(** The stat cards never divide by zero or by [NaN]: unless the total
    value is positive both percentages are the text 0% and nothing is
    divided, and the initial investment is divided by only when it is a
    number other than zero. *)
Theorem cards_never_divide_by_zero
    (totalValue totalReturn initial_investment : float) :
  Forall (fun d => Js.is_nan d = false /\ (d =? 0)%float = false)
    (card_denominators totalValue totalReturn initial_investment)
  /\ ((0 <? totalValue)%float = true
      \/ (value_change totalValue initial_investment = ret "0%"
          /\ return_change totalReturn totalValue = ret "0%"))
  /\ (Js.truthy initial_investment = true
      \/ value_change totalValue initial_investment = ret "0%").
Proof.
  assert (Hsafe : forall d, Js.truthy d = true ->
                    Js.is_nan d = false /\ (d =? 0)%float = false).
  { intros d. unfold Js.truthy. rewrite negb_true_iff, orb_false_iff. auto. }
  unfold card_denominators, value_change, return_change.
  destruct (0 <? totalValue)%float eqn:Ev;
    destruct (Js.truthy initial_investment) eqn:Ei; cbn [andb];
    repeat split; auto; cbn; repeat constructor;
    auto using positive_truthy.
  all: apply Hsafe; auto using positive_truthy.
Qed.

End Builtins.

(** A negative initial investment is a number other than zero: the
    percentage is computed against it. *)
Example negative_investment_divided :
  denominators (value_change (fun _ _ => "") 1000 (-500)) = [(-500)%float].
Proof. reflexivity. Qed.

End DashboardStats.

(* ===================================================================== *)
(** ** Bounds on the insight lists of both pages *)
(* ===================================================================== *)

Module Insights.

(** C10: the portfolio page's [generateAiInsights] returns at most five
    insights, each built from a holding that is not cash and whose
    confidence score exceeds 0.7, and the dashboard's
    [generateAiInsights] sets at most three insights. *)
Theorem insight_lists_bounded
    (toFixed : float -> nat -> string)
    (holdings : list Api.holding) (portfolios : option (list Api.portfolio)) :
  (length (PortfolioPage.generateAiInsights toFixed holdings) <= 5)%nat
  /\ Forall (PortfolioPage.from_eligible toFixed holdings)
       (PortfolioPage.generateAiInsights toFixed holdings)
  /\ (length (Dashboard.generateAiInsights toFixed portfolios) <= 3)%nat.
Proof.
  split; [|split].
  - apply PortfolioPage.insights_length.
  - apply PortfolioPage.insights_from_eligible.
  - apply Dashboard.generateAiInsights_length.
Qed.

End Insights.

(* ===================================================================== *)
(** ** pages/DepositWithdraw.jsx *)
(* ===================================================================== *)

Module DepositWithdraw.
Import Api.

Inductive transaction_type : Type := Deposit | Withdrawal.

Record transaction : Type := Transaction {
  transaction_id : float;
  type : transaction_type;
  transaction_amount : float;
  date : string;
  status : string
}.

(** The component state. *)
Record state : Type := State {
  amount : string;
  balance : float;
  portfolios : list portfolio;
  selectedPortfolio : string;
  isLoading : bool;
  transactions : list transaction
}.

(** What a handler does to the outside world, in order. *)
Inductive effect : Type :=
| ToastError (message : string)
| ToastSuccess (message : string)
| UpdatePreferences (initial_investment : float)
| UpdatePortfolio (id : string) (total_value : float)
| ConsoleError (message : string)
| FetchUserData.

Definition is_update (e : effect) : bool :=
  match e with
  | UpdatePreferences _ | UpdatePortfolio _ _ => true
  | _ => false
  end.

Section Environment.

(** Parsing and printing of numbers, and the clock. *)
Variable parseFloat : string -> float.
Variable toString : float -> string.
Variable toLocaleString : float -> string.
Variable Date_now : float.
Variable toISOString : float -> string.

(** Whether [userApi.updatePreferences] and [portfolioApi.update]
    resolve ([true]) or reject. *)
Variable preferences_saved : bool.
Variable portfolio_saved : bool.

Definition set_loading (b : bool) (st : state) : state :=
  {| amount := amount st; balance := balance st;
     portfolios := portfolios st;
     selectedPortfolio := selectedPortfolio st;
     isLoading := b; transactions := transactions st |}.

(** State after the [catch] and [finally] blocks. *)
Definition failed (st : state) (done : list effect) : state * list effect :=
  (set_loading false st,
   done ++ [ConsoleError "Withdrawal error:";
            ToastError "Failed to process withdrawal"]).

(** State after the [try] block ran to its end. *)
Definition completed (st : state) (withdrawAmount newBalance : float)
    (done : list effect) : state * list effect :=
  ({| amount := "";
      balance := newBalance;
      portfolios := portfolios st;
      selectedPortfolio := selectedPortfolio st;
      isLoading := false;
      transactions :=
        {| transaction_id := Date_now; type := Withdrawal;
           transaction_amount := withdrawAmount;
           date := toISOString Date_now;
           status := "completed" |} :: transactions st |},
   done ++ [ToastSuccess ("Successfully withdrew $"
                          +:+ toLocaleString withdrawAmount);
            FetchUserData]).

(** [handleWithdraw]: the state it leaves and the effects it
    performed. *)
Definition handleWithdraw (st : state) : state * list effect :=
  let withdrawAmount := parseFloat (amount st) in
  if negb (Js.truthy withdrawAmount) || (withdrawAmount <=? 0)%float
  then (st, [ToastError "Please enter a valid amount"])
  else if (balance st <? withdrawAmount)%float
  then (st, [ToastError "Insufficient funds"])
  else if String.eqb (selectedPortfolio st) ""
  then (st, [ToastError "Please select a portfolio"])
  else
    let newBalance := (balance st - withdrawAmount)%float in
    let saved := [UpdatePreferences newBalance] in
    if negb preferences_saved then failed st saved
    else
      match List.find
              (fun p => String.eqb (toString (portfolio_id p))
                                   (selectedPortfolio st))
              (portfolios st) with
      | Some portfolio =>
          let saved :=
            saved ++
            [UpdatePortfolio (selectedPortfolio st)
               (Js.Math_max 0
                  (Js.num_or (total_value portfolio) 0 - withdrawAmount)%float)] in
          if negb portfolio_saved then failed st saved
          else completed st withdrawAmount newBalance saved
      | None => completed st withdrawAmount newBalance saved
      end.

(** A request the handler must turn down. *)
Definition invalid_request (st : state) : Prop :=
  (0 <? parseFloat (amount st))%float = false
  \/ (balance st <? parseFloat (amount st))%float = true
  \/ selectedPortfolio st = "".

Lemma not_positive_rejected (x : float) :
  (0 <? x)%float = false ->
  negb (Js.truthy x) || (x <=? 0)%float = true.
Proof.
  intros H. unfold Js.truthy. rewrite negb_involutive.
  destruct (Js.not_positive_cases x H) as [-> | [-> | ->]];
    rewrite ?orb_true_r; reflexivity.
Qed.

(** C8: a withdrawal whose parsed amount is not a positive number, or
    exceeds the balance, or has no portfolio selected, leaves the
    whole component state -- balance and transaction history included
    -- as it was, and its only effect is one error toast: no
    preference update, no portfolio update. *)
Theorem withdraw_rejected_unchanged (st : state) :
  invalid_request st ->
  exists message : string,
    handleWithdraw st = (st, [ToastError message])
    /\ balance (handleWithdraw st).1 = balance st
    /\ transactions (handleWithdraw st).1 = transactions st
    /\ List.filter is_update (handleWithdraw st).2 = [].
Proof.
  intros Hinv.
  assert (H : exists message, handleWithdraw st = (st, [ToastError message])).
  { unfold handleWithdraw.
    destruct (negb (Js.truthy (parseFloat (amount st)))
              || (parseFloat (amount st) <=? 0)%float) eqn:E1; [eauto|].
    destruct (balance st <? parseFloat (amount st))%float eqn:E2; [eauto|].
    destruct (String.eqb (selectedPortfolio st) "") eqn:E3; [eauto|].
    exfalso. destruct Hinv as [H | [H | H]].
    - rewrite (not_positive_rejected _ H) in E1. discriminate.
    - congruence.
    - rewrite H in E3. discriminate. }
  destruct H as [message ->]. exists message. repeat split.
Qed.

End Environment.

(** *** A concrete account *)

(** A stand-in for [parseFloat] on the inputs used below: two decimal
    literals, and [NaN] for text that does not start with a number. *)
Definition parse_example (s : string) : float :=
  if String.eqb s "500" then 500%float
  else if String.eqb s "50" then 50%float
  else nan.

Definition account (typed selected : string) : state :=
  {| amount := typed; balance := 100;
     portfolios := [{| portfolio_id := 1; name := "Growth";
                       total_value := 2000; volatility := 0.1;
                       holdings := None |}];
     selectedPortfolio := selected; isLoading := false;
     transactions := [{| transaction_id := 1; type := Deposit;
                         transaction_amount := 10000;
                         date := "2024-01-01T00:00:00.000Z";
                         status := "completed" |}] |}.

(** Withdrawing 50 from a balance of 100 goes through: both updates are
    sent and the balance drops to 50. *)
Example withdraw_50 :
  let r := handleWithdraw parse_example (fun _ => "1") (fun _ => "50") 7
             (fun _ => "now") true true (account "50" "1") in
  balance r.1 = 50%float
  /\ length (transactions r.1) = 2%nat
  /\ List.filter is_update r.2
     = [UpdatePreferences 50; UpdatePortfolio "1" 1950].
Proof. vm_compute. repeat split; reflexivity. Qed.

(** Withdrawing 500 from a balance of 100 is an invalid request, and is
    turned down with the state unchanged. *)
Lemma withdraw_rejected_witness :
  invalid_request parse_example (account "500" "1")
  /\ exists message : string,
       let r := handleWithdraw parse_example (fun _ => "1") (fun _ => "500")
                  7 (fun _ => "now") true true (account "500" "1") in
       r = (account "500" "1", [ToastError message])
       /\ balance r.1 = balance (account "500" "1")
       /\ transactions r.1 = transactions (account "500" "1")
       /\ List.filter is_update r.2 = [].
Proof.
  split.
  - right. left. vm_compute. reflexivity.
  - apply (withdraw_rejected_unchanged parse_example (fun _ => "1")
             (fun _ => "500") 7 (fun _ => "now") true true
             (account "500" "1")).
    right. left. vm_compute. reflexivity.
Defined.

(** *** Deposits, and what a handler does to the page *)

Section Handlers.

Variable parseFloat : string -> float.
Variable toString : float -> string.
Variable toLocaleString : float -> string.
Variable Date_now : float.
Variable toISOString : float -> string.
Variable preferences_saved : bool.
Variable portfolio_saved : bool.

#[local] Notation withdraw :=
  (handleWithdraw parseFloat toString toLocaleString Date_now toISOString
     preferences_saved portfolio_saved).

(** State after the [catch] and [finally] blocks of [handleDeposit]. *)
Definition deposit_failed (st : state) (done : list effect)
  : state * list effect :=
  (set_loading false st,
   done ++ [ConsoleError "Deposit error:";
            ToastError "Failed to process deposit"]).

(** State after the [try] block of [handleDeposit] ran to its end. *)
Definition deposit_completed (st : state) (depositAmount newBalance : float)
    (done : list effect) : state * list effect :=
  ({| amount := "";
      balance := newBalance;
      portfolios := portfolios st;
      selectedPortfolio := selectedPortfolio st;
      isLoading := false;
      transactions :=
        {| transaction_id := Date_now; type := Deposit;
           transaction_amount := depositAmount;
           date := toISOString Date_now;
           status := "completed" |} :: transactions st |},
   done ++ [ToastSuccess ("Successfully deposited $"
                          +:+ toLocaleString depositAmount);
            FetchUserData]).

(** [handleDeposit]: the state it leaves and the effects it performed. *)
Definition handleDeposit (st : state) : state * list effect :=
  let depositAmount := parseFloat (amount st) in
  if negb (Js.truthy depositAmount) || (depositAmount <=? 0)%float
  then (st, [ToastError "Please enter a valid amount"])
  else if String.eqb (selectedPortfolio st) ""
  then (st, [ToastError "Please select a portfolio"])
  else
    let newBalance := (balance st + depositAmount)%float in
    let saved := [UpdatePreferences newBalance] in
    if negb preferences_saved then deposit_failed st saved
    else
      match List.find
              (fun p => String.eqb (toString (portfolio_id p))
                                   (selectedPortfolio st))
              (portfolios st) with
      | Some portfolio =>
          let saved :=
            saved ++
            [UpdatePortfolio (selectedPortfolio st)
               (Js.num_or (total_value portfolio) 0 + depositAmount)%float] in
          if negb portfolio_saved then deposit_failed st saved
          else deposit_completed st depositAmount newBalance saved
      | None => deposit_completed st depositAmount newBalance saved
      end.

(** [handleSubmit]: the handler of the active tab. *)
Definition handleSubmit (deposit_tab : bool) (st : state)
  : state * list effect :=
  if deposit_tab then handleDeposit st else withdraw st.

Definition is_success (e : effect) : bool :=
  match e with ToastSuccess _ => true | _ => false end.

(** Nothing the page shows about the account has moved. *)
Definition untouched (st st' : state) (effects : list effect) : Prop :=
  balance st' = balance st
  /\ transactions st' = transactions st
  /\ amount st' = amount st
  /\ portfolios st' = portfolios st
  /\ selectedPortfolio st' = selectedPortfolio st
  /\ List.filter is_success effects = [].

(** The page has booked one transaction of the given kind and amount:
    the preferences update was sent first and accepted, the balance moved
    to [newBalance], the transaction heads the history, the input is
    cleared and a refresh is requested last. *)
Definition booked (kind : transaction_type) (x newBalance : float)
    (st st' : state) (effects : list effect) : Prop :=
  preferences_saved = true
  /\ balance st' = newBalance
  /\ (exists tx, transactions st' = tx :: transactions st
                 /\ type tx = kind /\ transaction_amount tx = x
                 /\ status tx = "completed")
  /\ amount st' = ""
  /\ isLoading st' = false
  /\ head effects = Some (UpdatePreferences newBalance)
  /\ last effects = Some FetchUserData.

(** A deposit whose parsed amount is not a positive number, or that has
    no portfolio selected, leaves the component state as it was; its only
    effect is one error toast. *)
Theorem deposit_rejected_unchanged (st : state) :
  (0 <? parseFloat (amount st))%float = false \/ selectedPortfolio st = "" ->
  exists message : string, handleDeposit st = (st, [ToastError message]).
Proof.
  intros Hinv. unfold handleDeposit.
  destruct (negb (Js.truthy (parseFloat (amount st)))
            || (parseFloat (amount st) <=? 0)%float) eqn:E1; [eauto|].
  destruct (String.eqb (selectedPortfolio st) "") eqn:E3; [eauto|].
  exfalso. destruct Hinv as [H | H].
  - rewrite (not_positive_rejected _ H) in E1. discriminate.
  - rewrite H in E3. discriminate.
Qed.

(** A withdrawal is booked on the page entirely or not at all: either
    the balance, the history, the input and the selection are exactly as
    before and no success is announced -- this is so for every rejected
    request and for every failure of an API call, even when the
    preferences update had already been accepted -- or the withdrawal is
    booked in full. *)
Theorem withdraw_all_or_nothing (st : state) :
  untouched st (withdraw st).1 (withdraw st).2
  \/ booked Withdrawal (parseFloat (amount st))
       (balance st - parseFloat (amount st))%float
       st (withdraw st).1 (withdraw st).2.
Proof.
  unfold handleWithdraw.
  destruct (negb _ || _); [left; repeat split|].
  destruct (balance st <? _)%float; [left; repeat split|].
  destruct (String.eqb _ ""); [left; repeat split|].
  cbv beta iota zeta.
  destruct preferences_saved eqn:Ep; cbn [negb];
    [|left; repeat split].
  destruct (List.find _ _) as [p|].
  - destruct portfolio_saved; cbn [negb]; [|left; repeat split].
    right. unfold booked, completed. cbn [fst snd balance transactions
      amount isLoading]. split; [exact Ep|]. repeat split.
    eexists. repeat split.
  - right. unfold booked, completed. cbn [fst snd balance transactions
      amount isLoading]. split; [exact Ep|]. repeat split.
    eexists. repeat split.
Qed.

(** A deposit is booked on the page entirely or not at all: either the
    balance, the history, the input and the selection are exactly as
    before and no success is announced, or the deposit is booked in
    full. *)
Theorem deposit_all_or_nothing (st : state) :
  untouched st (handleDeposit st).1 (handleDeposit st).2
  \/ booked Deposit (parseFloat (amount st))
       (balance st + parseFloat (amount st))%float
       st (handleDeposit st).1 (handleDeposit st).2.
Proof.
  unfold handleDeposit.
  destruct (negb _ || _); [left; repeat split|].
  destruct (String.eqb _ ""); [left; repeat split|].
  cbv beta iota zeta.
  destruct preferences_saved eqn:Ep; cbn [negb];
    [|left; repeat split].
  destruct (List.find _ _) as [p|].
  - destruct portfolio_saved; cbn [negb]; [|left; repeat split].
    right. unfold booked, deposit_completed. cbn [fst snd balance transactions
      amount isLoading]. split; [exact Ep|]. repeat split.
    eexists. repeat split.
  - right. unfold booked, deposit_completed. cbn [fst snd balance transactions
      amount isLoading]. split; [exact Ep|]. repeat split.
    eexists. repeat split.
Qed.

End Handlers.

(** Depositing text that is not a number is turned down. *)
Lemma deposit_rejected_witness :
  ((0 <? parse_example (amount (account "abc" "1")))%float = false
   \/ selectedPortfolio (account "abc" "1") = "")
  /\ exists message : string,
       handleDeposit parse_example (fun _ => "1") (fun _ => "0") 7
         (fun _ => "now") true true (account "abc" "1")
       = (account "abc" "1", [ToastError message]).
Proof.
  split.
  - left. vm_compute. reflexivity.
  - apply (deposit_rejected_unchanged parse_example (fun _ => "1")
             (fun _ => "0") 7 (fun _ => "now") true true (account "abc" "1")).
    left. vm_compute. reflexivity.
Defined.

(** The preferences update is accepted and the portfolio update is not:
    the new balance has been sent, the page still shows the old one. *)
Example withdraw_half_saved :
  let r := handleWithdraw parse_example (fun _ => "1") (fun _ => "50") 7
             (fun _ => "now") true false (account "50" "1") in
  balance r.1 = 100%float
  /\ transactions r.1 = transactions (account "50" "1")
  /\ List.filter is_update r.2
     = [UpdatePreferences 50; UpdatePortfolio "1" 1950].
Proof. vm_compute. repeat split; reflexivity. Qed.

(** *** fetchUserData *)

(** The component state with its loading flag for the first fetch. *)
Record page : Type := Page {
  main : state;
  isFetching : bool
}.

(** What an API call resolves to: a rejected promise, or a response with
    or without [data]. *)
Inductive reply (A : Type) : Type :=
| Failed
| Replied (data : option A).
Arguments Failed {A}.
Arguments Replied {A} data.

Section Refresh.

Variable toString : float -> string.
Variable Date_now : float.
Variable toISOString : float -> string.

(** The one transaction [fetchUserData] installs. *)
Definition mock_deposit : transaction :=
  {| transaction_id := 1; type := Deposit; transaction_amount := 10000;
     date := toISOString Date_now; status := "completed" |}.

Definition set_balance (b : float) (st : state) : state :=
  {| amount := amount st; balance := b; portfolios := portfolios st;
     selectedPortfolio := selectedPortfolio st; isLoading := isLoading st;
     transactions := transactions st |}.

Definition set_portfolios (data : list portfolio) (selected : string)
    (st : state) : state :=
  {| amount := amount st; balance := balance st; portfolios := data;
     selectedPortfolio := selected; isLoading := isLoading st;
     transactions := transactions st |}.

Definition set_transactions (l : list transaction) (st : state) : state :=
  {| amount := amount st; balance := balance st; portfolios := portfolios st;
     selectedPortfolio := selectedPortfolio st; isLoading := isLoading st;
     transactions := l |}.

Definition load_failed (st : state) : page * list effect :=
  ({| main := st; isFetching := false |},
   [ConsoleError "Error fetching user data:";
    ToastError "Failed to load account data"]).

(** [fetchUserData], given what [userApi.getPreferences()] and
    [portfolioApi.getAll()] resolve to; the number in [userRes] is its
    [initial_investment]. *)
Definition fetchUserData (pg : page) (userRes : reply float)
    (portfolioRes : reply (list portfolio)) : page * list effect :=
  match userRes with
  | Failed => load_failed (main pg)
  | Replied user =>
      let st1 :=
        match user with
        | Some initial_investment =>
            set_balance (Js.num_or initial_investment 0) (main pg)
        | None => main pg
        end in
      match portfolioRes with
      | Failed => load_failed st1
      | Replied data =>
          let st2 :=
            match data with
            | Some ((first :: _) as all) =>
                set_portfolios all (toString (portfolio_id first)) st1
            | _ => st1
            end in
          ({| main := set_transactions [mock_deposit] st2;
              isFetching := false |}, [])
      end
  end.

Variable parseFloat : string -> float.
Variable toLocaleString : float -> string.

Lemma positive_accepted (x : float) :
  (0 <? x)%float = true ->
  negb (Js.truthy x) || (x <=? 0)%float = false.
Proof.
  intros H. unfold Js.truthy.
  destruct (Js.positive_not_zero x H) as [-> ->].
  rewrite (Js.positive_not_le x H). reflexivity.
Qed.

(** The page's record of a withdrawal lasts until the next refresh.  A
    withdrawal that goes through is put at the head of the history and
    ends by requesting [fetchUserData]; once that fetch has resolved, the
    history is the one mock deposit again -- the withdrawal is no longer
    listed -- whatever the server answered. *)
Theorem refresh_forgets_withdrawal (st : state) (user : option float)
    (data : option (list portfolio)) :
  (0 <? parseFloat (amount st))%float = true ->
  (balance st <? parseFloat (amount st))%float = false ->
  selectedPortfolio st <> "" ->
  let r := handleWithdraw parseFloat toString toLocaleString Date_now
             toISOString true true st in
  (exists tx, head (transactions r.1) = Some tx /\ type tx = Withdrawal)
  /\ last r.2 = Some FetchUserData
  /\ transactions
       (main (fetchUserData {| main := r.1; isFetching := false |}
                (Replied user) (Replied data)).1)
     = [mock_deposit].
Proof.
  intros Hpos Hfunds Hsel r. subst r. split; [|split].
  - unfold handleWithdraw.
    rewrite (positive_accepted _ Hpos), Hfunds.
    apply String.eqb_neq in Hsel. rewrite Hsel. cbv beta iota zeta.
    cbn [negb]. destruct (List.find _ _); eexists; split; reflexivity.
  - unfold handleWithdraw.
    rewrite (positive_accepted _ Hpos), Hfunds.
    apply String.eqb_neq in Hsel. rewrite Hsel. cbv beta iota zeta.
    cbn [negb]. destruct (List.find _ _); reflexivity.
  - unfold fetchUserData. destruct user, data as [[|p ps]|]; reflexivity.
Qed.

End Refresh.

(** Withdrawing 50 of 100, then the refresh. *)
Lemma refresh_forgets_withdrawal_witness :
  ((0 <? parse_example (amount (account "50" "1")))%float = true
   /\ (balance (account "50" "1")
       <? parse_example (amount (account "50" "1")))%float = false
   /\ selectedPortfolio (account "50" "1") <> "")
  /\ (exists tx,
        head (transactions
                (handleWithdraw parse_example (fun _ => "1") (fun _ => "50") 7
                   (fun _ => "now") true true (account "50" "1")).1)
        = Some tx /\ type tx = Withdrawal)
  /\ last (handleWithdraw parse_example (fun _ => "1") (fun _ => "50") 7
             (fun _ => "now") true true (account "50" "1")).2
     = Some FetchUserData
  /\ transactions
       (main (fetchUserData (fun _ => "1") 7 (fun _ => "now")
                {| main :=
                     (handleWithdraw parse_example (fun _ => "1")
                        (fun _ => "50") 7 (fun _ => "now") true true
                        (account "50" "1")).1;
                   isFetching := false |}
                (Replied (Some 50%float)) (Replied None)).1)
     = [mock_deposit 7 (fun _ => "now")].
Proof.
  split.
  - repeat split; try (vm_compute; reflexivity). discriminate.
  - apply (refresh_forgets_withdrawal (fun _ => "1") 7 (fun _ => "now")
             parse_example (fun _ => "50") (account "50" "1") (Some 50%float)
             None).
    + vm_compute. reflexivity.
    + vm_compute. reflexivity.
    + discriminate.
Defined.

End DepositWithdraw.

(* ===================================================================== *)
(** ** The analysis page: the popular-asset list *)
(* ===================================================================== *)

Module Analysis.

(** An entry of [marketApi.getPopularStocks()]. *)
Record stock : Type := Stock {
  stock_symbol : string;
  stock_price : float;
  change_percent : float
}.

Inductive signal : Type := strong_buy | buy | hold | sell.

(** An entry of the page's [popularAssets] state. *)
Record asset : Type := Asset {
  symbol : string;
  name : string;
  price : float;
  change : float;
  aiSignal : signal;
  confidence : float
}.

(** The table inside [getCompanyName]. *)
Definition names : gmap string string :=
  list_to_map
    [("AAPL", "Apple Inc."); ("MSFT", "Microsoft Corp.");
     ("GOOGL", "Alphabet Inc."); ("AMZN", "Amazon.com Inc.");
     ("TSLA", "Tesla Inc."); ("META", "Meta Platforms Inc.");
     ("NVDA", "NVIDIA Corp."); ("NFLX", "Netflix Inc.");
     ("AMD", "Advanced Micro Devices"); ("INTC", "Intel Corp.");
     ("CRM", "Salesforce Inc."); ("ADBE", "Adobe Inc.");
     ("PYPL", "PayPal Holdings"); ("UBER", "Uber Technologies");
     ("COIN", "Coinbase Global")].

(** [names[symbol] || symbol], for symbols that are ticker strings (the
    table is consulted through its own keys). *)
Definition getCompanyName (symbol : string) : string :=
  default symbol (names !! symbol).

(** The signal attached to a day's percentage change. *)
Definition signal_of (change_percent : float) : signal :=
  if (2 <? change_percent)%float then strong_buy
  else if (0 <? change_percent)%float then buy
  else if (-2 <? change_percent)%float then hold
  else sell.

(** The [map] callback; [random] is the value [Math.random()] returns
    for this entry. *)
Definition to_asset (random : float) (s : stock) : asset :=
  {| symbol := stock_symbol s;
     name := getCompanyName (stock_symbol s);
     price := stock_price s;
     change := change_percent s;
     aiSignal := signal_of (change_percent s);
     confidence := (Js.Math_floor (random * 20) + 75)%float |}.

(** [popularRes.data.slice(0, 8).map(...)]: the list handed to
    [setPopularAssets].  [random i] is the outcome of the [i]-th call of
    [Math.random()]. *)
Definition popularAssets (random : nat -> float) (data : list stock)
  : list asset :=
  imap (fun i s => to_asset (random i) s) (take 8 data).

(** An asset without its simulated confidence. *)
Definition listing (a : asset) : string * string * float * float * signal :=
  (symbol a, name a, price a, change a, aiSignal a).

(** The order the specification asks for: by predicted return
    descending, ties by higher confidence, then by symbol. *)
Definition ranked_before (a b : asset) : bool :=
  (change b <? change a)%float
  || ((change a =? change b)%float
      && ((confidence b <? confidence a)%float
          || ((confidence a =? confidence b)%float
              && String.leb (symbol a) (symbol b)))).

Fixpoint ranked (l : list asset) : bool :=
  match l with
  | a :: ((b :: _) as rest) => ranked_before a b && ranked rest
  | _ => true
  end.

Lemma imap_listing (random : nat -> float) (l : list stock) :
  List.map listing (imap (fun i s => to_asset (random i) s) l)
  = List.map (fun s => listing (to_asset 0%float s)) l.
Proof.
  revert random. induction l as [|s l IH]; intros random; [reflexivity|].
  cbn [imap List.map]. f_equal. apply (IH (random ∘ S)).
Qed.

(** C6 (as amended): for a fixed API response, the symbols, their order
    and their signals are reproducible -- two runs yield the same
    listing whatever [Math.random()] returns -- and the order is that of
    the response, cut to its first eight entries, each signal being
    determined by the entry's percentage change; the list is not sorted,
    and the confidence is a simulated value drawn afresh on every
    run. *)
Theorem listing_reproducible (random1 random2 : nat -> float)
    (data : list stock) :
  List.map listing (popularAssets random1 data)
  = List.map listing (popularAssets random2 data)
  /\ List.map symbol (popularAssets random1 data)
     = List.map stock_symbol (take 8 data)
  /\ List.map aiSignal (popularAssets random1 data)
     = List.map (fun s => signal_of (change_percent s)) (take 8 data).
Proof.
  unfold popularAssets. split; [|split].
  - rewrite !imap_listing. reflexivity.
  - generalize (imap_listing random1 (take 8 data)).
    intros H. apply (f_equal (List.map (fun x => x.1.1.1.1))) in H.
    rewrite !List.map_map in H. exact H.
  - generalize (imap_listing random1 (take 8 data)).
    intros H. apply (f_equal (List.map snd)) in H.
    rewrite !List.map_map in H. exact H.
Qed.

(** *** A concrete response *)

Definition two_stocks : list stock :=
  [{| stock_symbol := "AAPL"; stock_price := 190; change_percent := 1 |};
   {| stock_symbol := "NVDA"; stock_price := 800; change_percent := 3 |}].

(** C6, counterexample: NVDA gained more than AAPL, yet the list keeps
    the response's order, AAPL first: it is not ranked by return.  And
    two runs on this same response, with different draws of
    [Math.random()], disagree on the confidence of every entry. *)
Lemma popular_assets_not_ranked :
  List.map symbol (popularAssets (fun _ => 0%float) two_stocks)
  = ["AAPL"; "NVDA"]
  /\ ranked (popularAssets (fun _ => 0%float) two_stocks) = false
  /\ List.map confidence (popularAssets (fun _ => 0%float) two_stocks)
     = [75; 75]%float
  /\ List.map confidence (popularAssets (fun _ => 0.5%float) two_stocks)
     = [85; 85]%float.
Proof. vm_compute. repeat split; reflexivity. Qed.

(** *** The signal and the sign of the change *)

Lemma above_two_positive (x : float) :
  (2 <? x)%float = true -> (0 <? x)%float = true.
Proof.
  rewrite !FloatAxioms.ltb_spec.
  change (Prim2SF 0) with (S754_zero false).
  destruct (Prim2SF x) as [s|s| |s m e]; try destruct s; cbn;
    intros H; try discriminate H; reflexivity.
Qed.

Lemma nan_not_above (c x : float) :
  Js.is_nan x = true -> (c <? x)%float = false.
Proof.
  unfold Js.is_nan.
  rewrite FloatAxioms.ltb_spec, FloatAxioms.eqb_spec.
  destruct (Prim2SF x) as [s|s| |s m e]; try destruct s; cbn;
    intros H; try discriminate H.
  - destruct (Prim2SF c) as [s|s| |s m e]; try destruct s; reflexivity.
  - unfold SFeqb, SFcompare in H.
    rewrite Z.compare_refl, Pos.compare_refl in H. discriminate H.
  - unfold SFeqb, SFcompare in H.
    rewrite Z.compare_refl, Pos.compare_refl in H. discriminate H.
Qed.

(** A buy or strong-buy signal is shown exactly for a positive change;
    an entry whose change is missing or not a number is shown as a sell;
    and a sell is never shown for a change above -2. *)
Theorem signal_follows_sign (change_percent : float) :
  ((signal_of change_percent = strong_buy \/ signal_of change_percent = buy)
   <-> (0 <? change_percent)%float = true)
  /\ (if Js.is_nan change_percent
      then signal_of change_percent = sell else True)
  /\ (if (-2 <? change_percent)%float
      then signal_of change_percent <> sell else True).
Proof.
  unfold signal_of. split; [|split].
  - destruct (2 <? change_percent)%float eqn:E2.
    + split; [intros _; apply above_two_positive, E2 | auto].
    + destruct (0 <? change_percent)%float eqn:E0; [split; auto|].
      destruct (-2 <? change_percent)%float; split;
        intros H; try discriminate H; destruct H as [H|H]; discriminate H.
  - destruct (Js.is_nan change_percent) eqn:En; [|exact I].
    rewrite !(nan_not_above _ _ En). reflexivity.
  - destruct (-2 <? change_percent)%float eqn:Em; [|exact I].
    destruct (2 <? change_percent)%float; [discriminate|].
    destruct (0 <? change_percent)%float; discriminate.
Qed.

(** *** Searching *)

(** An entry of [marketApi.searchStocks]. *)
Record hit : Type := Hit {
  hit_symbol : string
}.

(** The body of [marketApi.getAIAnalysis]. *)
Record analysis : Type := Analysis {
  analysis_symbol : string;
  analysis_signal : string;
  analysis_confidence : float;
  rationale : string
}.

(** The part of the component state the search writes. *)
Record state : Type := State {
  searchQuery : string;
  searchResults : list hit;
  aiAnalysis : option analysis;
  selectedAsset : option analysis;
  isSearching : bool;
  isAnalyzing : bool
}.

(** A settled request: rejected, or resolved with [response.data]. *)
Inductive reply (A : Type) : Type :=
| Failed
| Replied (data : option A).
Arguments Failed {A}.
Arguments Replied {A} data.

Inductive effect : Type :=
| ConsoleError (message : string)
| ToastError (message : string).

Section Search.

Variable trim : string -> string.
Variable searchStocks : string -> reply (list hit).
Variable getAIAnalysis : string -> reply analysis.

Definition analysed (st : state) (shown : option analysis)
    (selected : option analysis) : state :=
  {| searchQuery := searchQuery st; searchResults := searchResults st;
     aiAnalysis := shown; selectedAsset := selected;
     isSearching := isSearching st; isAnalyzing := false |}.

Definition analysis_failed : list effect :=
  [ConsoleError "AI analysis error:"; ToastError "Failed to get AI analysis"].

(** [fetchAIAnalysis(symbol)]; a response without a body has been stored
    by [setAiAnalysis] when reading [response.data.symbol] throws. *)
Definition fetchAIAnalysis (st : state) (symbol : string)
  : state * list effect :=
  match getAIAnalysis symbol with
  | Replied (Some a) => (analysed st (Some a) (Some a), [])
  | Replied None => (analysed st None (selectedAsset st), analysis_failed)
  | Failed => (analysed st (aiAnalysis st) (selectedAsset st), analysis_failed)
  end.

Definition searched (st : state) (results : list hit) : state :=
  {| searchQuery := searchQuery st; searchResults := results;
     aiAnalysis := aiAnalysis st; selectedAsset := selectedAsset st;
     isSearching := false; isAnalyzing := isAnalyzing st |}.

(** [handleSearch]. *)
Definition handleSearch (st : state) : state * list effect :=
  if String.eqb (trim (searchQuery st)) "" then (st, [])
  else
    match searchStocks (searchQuery st) with
    | Failed => (searched st (searchResults st), [ToastError "Search failed"])
    | Replied data =>
        let results := default [] data in
        match data with
        | Some (first :: _) =>
            let '(st', log) :=
              fetchAIAnalysis (searched st results) (hit_symbol first) in
            (searched st' results, log)
        | _ => (searched st results, [])
        end
    end.

Lemma fetchAIAnalysis_keeps (st : state) (symbol : string) :
  searchResults (fetchAIAnalysis st symbol).1 = searchResults st
  /\ ToastError "Search failed" ∉ (fetchAIAnalysis st symbol).2.
Proof.
  unfold fetchAIAnalysis.
  unfold analysis_failed.
  destruct (getAIAnalysis symbol) as [|[a|]]; cbn [fst snd analysed
    searchResults]; split; try reflexivity;
    rewrite ?not_elem_of_cons; repeat split; try discriminate;
    apply not_elem_of_nil.
Qed.

(** A blank query sends nothing and changes nothing.  Otherwise the
    search ends with the spinner off; 'Search failed' is shown exactly
    when the search request itself is rejected; and the results of a
    search that came back are kept on the page even when the analysis of
    the first hit fails. *)
Theorem search_survives_analysis_failure (st : state) :
  if String.eqb (trim (searchQuery st)) "" then handleSearch st = (st, [])
  else
    isSearching (handleSearch st).1 = false
    /\ match searchStocks (searchQuery st) with
       | Failed =>
           (handleSearch st).2 = [ToastError "Search failed"]
           /\ searchResults (handleSearch st).1 = searchResults st
       | Replied data =>
           (ToastError "Search failed" ∉ (handleSearch st).2)
           /\ searchResults (handleSearch st).1 = default [] data
       end.
Proof.
  unfold handleSearch.
  destruct (String.eqb (trim (searchQuery st)) ""); [reflexivity|].
  destruct (searchStocks (searchQuery st)) as [|[[|first rest]|]];
    cbv zeta; cbn [default];
    try (repeat split; try reflexivity; apply not_elem_of_nil).
  destruct (fetchAIAnalysis_keeps (searched st (first :: rest))
              (hit_symbol first)) as [Hres Htoast].
  destruct (fetchAIAnalysis _ _) as [st' log]. cbn [fst snd] in *.
  repeat split; assumption.
Qed.

End Search.

End Analysis.

(* ===================================================================== *)
(** ** plans/api-research.md: the sliding-window rate limiter *)
(* ===================================================================== *)

Module RateLimiter.

(** The clock [time.time()] is read as a number of ticks of any fixed
    resolution; [window] is counted in the same ticks.  [calls] is the
    deque, oldest call first. *)
Record limiter : Type := Limiter {
  max_calls : Z;
  window : Z;
  calls : list Z
}.

(** [RateLimiter(max_calls=60, window=60)] *)
Definition init (max_calls window : Z) : limiter :=
  {| max_calls := max_calls; window := window; calls := [] |}.

(** [while self.calls and self.calls[0] < cutoff: self.calls.popleft()] *)
Fixpoint expire (cutoff : Z) (calls : list Z) : list Z :=
  match calls with
  | c :: rest => if c <? cutoff then expire cutoff rest else calls
  | [] => []
  end.

(** [can_call()] at clock reading [now]: the verdict and the limiter
    afterwards. *)
Definition can_call (l : limiter) (now : Z) : bool * limiter :=
  let calls := expire (now - window l) (calls l) in
  if Z.of_nat (length calls) <? max_calls l
  then (true, {| max_calls := max_calls l; window := window l;
                 calls := calls ++ [now] |})
  else (false, {| max_calls := max_calls l; window := window l;
                  calls := calls |}).

(** [wait_time()] at clock reading [now]; [None] is the [IndexError] of
    [self.calls[0]] on an empty deque. *)
Definition wait_time (l : limiter) (now : Z) : option Z :=
  if Z.of_nat (length (calls l)) <? max_calls l then Some 0
  else match calls l with
       | c :: _ => Some (c + window l - now)
       | [] => None
       end.

(** The calls that reach the provider when [can_call] is asked at each
    of the clock readings [attempts] in turn. *)
Fixpoint granted (l : limiter) (attempts : list Z) : list Z :=
  match attempts with
  | [] => []
  | now :: rest =>
      let (ok, l') := can_call l now in
      (if ok then [now] else []) ++ granted l' rest
  end.

(** How many of the times [l] fall in the closed window [[lo, hi]]. *)
Definition count_in (lo hi : Z) (l : list Z) : nat :=
  length (List.filter (fun a => (lo <=? a) && (a <=? hi)) l).

(** What the limiter does with one attempt: the verdict is [true]
    exactly when fewer than [max_calls] unexpired calls are on record,
    a granted call is recorded, a refused one leaves no trace. *)
Definition answers (l : limiter) (now : Z) : Prop :=
  let unexpired := expire (now - window l) (calls l) in
  (can_call l now).1 = (Z.of_nat (length unexpired) <? max_calls l)
  /\ calls (can_call l now).2
     = unexpired ++ (if (can_call l now).1 then [now] else []).

(** *** Expiry on a sorted deque is a filter *)

Definition since (c : Z) (l : list Z) : list Z :=
  List.filter (fun a => c <=? a) l.

Lemma since_cons (c a : Z) (l : list Z) :
  since c (a :: l) = if c <=? a then a :: since c l else since c l.
Proof. reflexivity. Qed.

Lemma since_all (c : Z) (l : list Z) :
  Forall (fun a => c <= a) l -> since c l = l.
Proof.
  induction 1 as [|a l Ha _ IH]; [reflexivity|].
  rewrite since_cons, IH.
  destruct (Z.leb_spec c a); [reflexivity|lia].
Qed.

Lemma expire_since (c cutoff : Z) (prev : list Z) :
  c <= cutoff -> StronglySorted Z.le prev ->
  expire cutoff (since c prev) = since cutoff prev.
Proof.
  intros Hc. induction 1 as [|a rest Hs IH Ha]; [reflexivity|].
  rewrite !since_cons.
  destruct (Z.leb_spec c a) as [Hca|Hca].
  - cbn [expire]. destruct (Z.ltb_spec a cutoff) as [Hlt|Hge].
    + destruct (Z.leb_spec cutoff a); [lia|]. exact IH.
    + destruct (Z.leb_spec cutoff a); [|lia].
      rewrite (since_all c rest), (since_all cutoff rest); [reflexivity| |].
      * eapply Forall_impl; [exact Ha|]. cbn. intros; lia.
      * eapply Forall_impl; [exact Ha|]. cbn. intros; lia.
  - destruct (Z.leb_spec cutoff a); [lia|]. exact IH.
Qed.

Lemma since_snoc (c now : Z) (prev : list Z) :
  c <= now -> since c (prev ++ [now]) = since c prev ++ [now].
Proof.
  intros H. unfold since. rewrite List.filter_app. cbn [List.filter].
  destruct (Z.leb_spec c now); [reflexivity|lia].
Qed.

Lemma count_in_since (lo hi c : Z) (l : list Z) :
  c <= lo -> (count_in lo hi l <= length (since c l))%nat.
Proof.
  intros H. unfold count_in, since.
  induction l as [|a l IH]; cbn [List.filter]; [lia|].
  destruct (Z.leb_spec lo a); cbn [andb].
  - destruct (Z.leb_spec c a); [|lia].
    destruct (a <=? hi); cbn [length]; lia.
  - destruct (c <=? a); cbn [length]; lia.
Qed.

Lemma count_in_snoc (lo hi now : Z) (l : list Z) :
  count_in lo hi (l ++ [now])
  = (count_in lo hi l
     + if ((lo <=? now)%Z && (now <=? hi)%Z)%bool then 1 else 0)%nat.
Proof.
  unfold count_in. rewrite List.filter_app, length_app. cbn [List.filter].
  destruct ((lo <=? now) && (now <=? hi)); reflexivity.
Qed.

Lemma sorted_snoc (prev : list Z) (now : Z) :
  StronglySorted Z.le prev -> Forall (fun a => a <= now) prev ->
  StronglySorted Z.le (prev ++ [now]).
Proof.
  induction 1 as [|a rest Hs IH Ha]; intros Hle; cbn [app].
  - repeat constructor.
  - inversion Hle as [|? ? Han Hrest]; subst.
    constructor; [apply IH, Hrest|].
    apply Forall_app. split; [exact Ha|]. repeat constructor. exact Han.
Qed.

(** *** The budget invariant

    [prev] is everything granted so far, [calls l] its part not older
    than [c], and no window holds more than [max_calls] of [prev]; then
    the same is true after any further attempts at later times. *)
Lemma granted_budget (attempts : list Z) :
  forall (l : limiter) (prev : list Z) (c : Z),
    0 <= window l ->
    StronglySorted Z.le prev ->
    StronglySorted Z.le attempts ->
    Forall (fun now => Forall (fun a => a <= now) prev) attempts ->
    Forall (fun now => c <= now - window l) attempts ->
    calls l = since c prev ->
    (forall t, Z.of_nat (count_in t (t + window l) prev) <= max_calls l) ->
    forall t,
      Z.of_nat (count_in t (t + window l) (prev ++ granted l attempts))
      <= max_calls l.
Proof.
  induction attempts as [|now rest IH];
    intros l prev c Hw Hprev Hatt Hle Hc Hcalls Hbudget t.
  - cbn [granted]. rewrite app_nil_r. apply Hbudget.
  - apply StronglySorted_inv in Hatt as [Hrest Hnow].
    inversion Hle as [|? ? Hprev_now Hle_rest]; subst.
    inversion Hc as [|? ? Hc_now Hc_rest]; subst.
    cbn [granted]. unfold can_call.
    rewrite Hcalls, (expire_since c (now - window l) prev Hc_now Hprev).
    destruct (Z.ltb_spec (Z.of_nat (length (since (now - window l) prev)))
                (max_calls l)) as [Hroom|Hfull]; cbv beta iota zeta.
    + rewrite app_assoc.
      pose proof (IH {| max_calls := max_calls l; window := window l;
                        calls := since (now - window l) prev ++ [now] |}
                    (prev ++ [now]) (now - window l)) as IH'.
      cbn [window max_calls calls] in IH'. apply IH'; clear IH'.
      * exact Hw.
      * apply sorted_snoc; assumption.
      * exact Hrest.
      * apply Forall_forall. intros now' Hin.
        apply Forall_app. split.
        -- exact (proj1 (Forall_forall _ _) Hle_rest now' Hin).
        -- repeat constructor.
           exact (proj1 (Forall_forall _ _) Hnow now' Hin).
      * eapply Forall_impl; [exact Hnow|]. cbn. intros; lia.
      * symmetry. apply since_snoc. lia.
      * intros t'. rewrite count_in_snoc.
        destruct (Z.leb_spec t' now); cbn [andb];
          [destruct (Z.leb_spec now (t' + window l))|].
        -- pose proof (count_in_since t' (t' + window l)
                         (now - window l) prev). lia.
        -- specialize (Hbudget t'). lia.
        -- specialize (Hbudget t'). lia.
    + cbn [app].
      pose proof (IH {| max_calls := max_calls l; window := window l;
                        calls := since (now - window l) prev |}
                    prev (now - window l)) as IH'.
      cbn [window max_calls calls] in IH'. apply IH'; clear IH';
        try assumption; try reflexivity.
      eapply Forall_impl; [exact Hnow|]. cbn. intros; lia.
Qed.

(** C5 (as amended): when [can_call] is asked at non-decreasing clock
    readings, the provider never receives more than [max_calls] calls in
    any closed window of length [window]; and each attempt is answered
    on the spot -- granted and recorded when fewer than [max_calls]
    unexpired calls are on record, refused with [False] and not recorded
    otherwise.  The limiter itself neither queues a refused call nor
    passes it to another provider. *)
Theorem sliding_window_budget (max_calls window : Z) (attempts : list Z)
    (t : Z) :
  0 <= max_calls -> 0 <= window -> StronglySorted Z.le attempts ->
  Z.of_nat (count_in t (t + window)
              (granted (init max_calls window) attempts)) <= max_calls
  /\ forall (l : limiter) (now : Z), answers l now.
Proof.
  intros Hmax Hw Hsorted. split.
  - destruct attempts as [|now rest]; [cbn; lia|].
    apply (granted_budget (now :: rest) (init max_calls window) []
             (now - window)); cbn [RateLimiter.window RateLimiter.max_calls
                                   calls init];
      try assumption; try reflexivity.
    + constructor.
    + apply Forall_forall. intros; constructor.
    + apply StronglySorted_inv in Hsorted as [_ Hnow].
      constructor; [lia|].
      eapply Forall_impl; [exact Hnow|]. cbn. intros; lia.
    + intros t'. cbn. lia.
  - intros l now. unfold answers, can_call.
    destruct (Z.of_nat (length (expire (now - RateLimiter.window l) (calls l)))
              <? RateLimiter.max_calls l); cbn [fst snd calls].
    + split; reflexivity.
    + split; [reflexivity|]. rewrite app_nil_r. reflexivity.
Qed.

Lemma expire_head (cutoff : Z) (calls : list Z) :
  match expire cutoff calls with
  | c :: _ => cutoff <= c
  | [] => True
  end.
Proof.
  induction calls as [|c rest IH]; cbn [expire]; [exact I|].
  destruct (Z.ltb_spec c cutoff); [exact IH | assumption].
Qed.

(** A budget of two calls per 60 ticks, asked six times. *)
Example two_per_minute :
  granted (init 2 60) [0; 10; 20; 61; 70; 71] = [0; 10; 61; 71].
Proof. reflexivity. Qed.

(** The budget theorem at that run, for the window from tick 10 to
    tick 70. *)
Lemma sliding_window_budget_witness :
  (0 <= 2 /\ 0 <= 60 /\ StronglySorted Z.le [0; 10; 20; 61; 70; 71])
  /\ Z.of_nat (count_in 10 (10 + 60)
                 (granted (init 2 60) [0; 10; 20; 61; 70; 71])) <= 2
  /\ forall (l : limiter) (now : Z), answers l now.
Proof.
  assert (Hs : StronglySorted Z.le [0; 10; 20; 61; 70; 71])
    by (repeat constructor; lia).
  split.
  - split; [lia|]. split; [lia|exact Hs].
  - apply (sliding_window_budget 2 60 [0; 10; 20; 61; 70; 71] 10);
      [lia | lia | exact Hs].
Defined.

(** C5, counterexample: with a budget of one call per 60 ticks and one
    call on record, the attempt at tick 1 exceeds the budget.  It is
    answered [False]; the limiter afterwards is exactly the limiter
    before, so the call is held in no queue, and the next call that
    reaches the provider is the caller's fresh attempt at tick 100, not
    the refused one. *)
Lemma over_budget_call_not_queued :
  can_call (init 1 60) 0 = (true, Limiter 1 60 [0])
  /\ can_call (Limiter 1 60 [0]) 1 = (false, Limiter 1 60 [0])
  /\ granted (init 1 60) [0; 1; 100] = [0; 100].
Proof. repeat split; reflexivity. Qed.

(** *** The deque, and what [wait_time] promises *)

(** The limiter after [can_call] has been asked at each of the clock
    readings [attempts] in turn. *)
Fixpoint after (l : limiter) (attempts : list Z) : limiter :=
  match attempts with
  | [] => l
  | now :: rest => after (can_call l now).2 rest
  end.

Lemma expire_length (cutoff : Z) (calls : list Z) :
  (length (expire cutoff calls) <= length calls)%nat.
Proof.
  induction calls as [|c rest IH]; cbn [expire]; [lia|].
  destruct (c <? cutoff); cbn [length]; lia.
Qed.

Lemma can_call_keeps_bound (l : limiter) (now : Z) :
  Z.of_nat (length (calls l)) <= max_calls l ->
  Z.of_nat (length (calls (can_call l now).2)) <= max_calls (can_call l now).2
  /\ max_calls (can_call l now).2 = max_calls l
  /\ window (can_call l now).2 = window l.
Proof.
  intros Hb. unfold can_call.
  pose proof (expire_length (now - window l) (calls l)) as Hlen.
  destruct (Z.ltb_spec (Z.of_nat (length (expire (now - window l) (calls l))))
              (max_calls l)); cbn [snd calls max_calls RateLimiter.window].
  - rewrite length_app. cbn [length]. lia.
  - lia.
Qed.

(** The deque never outgrows the budget: whatever the clock readings, in
    order or not, at most [max_calls] calls are on record. *)
Theorem deque_bounded (max_calls window : Z) (attempts : list Z) :
  0 <= max_calls ->
  Z.of_nat (length (calls (after (init max_calls window) attempts)))
  <= max_calls.
Proof.
  intros Hmax.
  assert (H : forall l,
             Z.of_nat (length (calls l)) <= RateLimiter.max_calls l ->
             Z.of_nat (length (calls (after l attempts)))
             <= RateLimiter.max_calls l).
  { induction attempts as [|now rest IH]; intros l Hb; cbn [after]; [exact Hb|].
    destruct (can_call_keeps_bound l now Hb) as (Hb' & Hm & _).
    rewrite <- Hm. apply IH. exact Hb'. }
  apply (H (init max_calls window)). cbn. lia.
Qed.

(** Clock readings that go backwards, budget of two. *)
Lemma deque_bounded_witness :
  0 <= 2
  /\ Z.of_nat (length (calls (after (init 2 60) [50; 10; 200; 30; 31; 32])))
     <= 2.
Proof.
  split; [lia|].
  apply (deque_bounded 2 60 [50; 10; 200; 30; 31; 32]). lia.
Defined.

(** While fewer than [max_calls] calls are on record, [wait_time] answers
    [0] and [can_call] grants the call and records it last. *)
Theorem room_means_granted (l : limiter) (now : Z) :
  Z.of_nat (length (calls l)) < max_calls l ->
  wait_time l now = Some 0
  /\ (can_call l now).1 = true
  /\ last (calls (can_call l now).2) = Some now.
Proof.
  intros Hroom. unfold wait_time, can_call.
  pose proof (expire_length (now - window l) (calls l)) as Hlen.
  destruct (Z.ltb_spec (Z.of_nat (length (calls l))) (max_calls l)); [|lia].
  destruct (Z.ltb_spec (Z.of_nat (length (expire (now - window l) (calls l))))
              (max_calls l)); [|lia].
  cbn [fst snd calls]. rewrite last_snoc. repeat split.
Qed.

Lemma room_means_granted_witness :
  Z.of_nat (length (calls (Limiter 2 60 [5]))) < max_calls (Limiter 2 60 [5])
  /\ wait_time (Limiter 2 60 [5]) 7 = Some 0
  /\ (can_call (Limiter 2 60 [5]) 7).1 = true
  /\ last (calls (can_call (Limiter 2 60 [5]) 7).2) = Some 7.
Proof.
  split; [cbn; lia|].
  apply (room_means_granted (Limiter 2 60 [5]) 7). cbn. lia.
Defined.

End RateLimiter.

(* ===================================================================== *)
(** ** plans/implementation-plan.md: MarketDataService.get_quote *)
(* ===================================================================== *)

Module MarketData.

(** The payload of a Finnhub quote request, by its keys. *)
Record payload : Type := Payload {
  c : float; d : float; dp : float; h : float; l : float; o : float;
  pc : float; t : float
}.

Record Quote : Type := MkQuote {
  symbol : string;
  price : float;
  change : float;
  change_percent : float;
  high : float;
  low : float;
  open : float;
  previous_close : float;
  timestamp : float
}.

(** Modelled from the spec: the [RedisCache] class behind [self.cache] is
    not among the sources.  A cache entry is a value with the time it
    stops being served; [set] creates or overwrites the entry of a key,
    [get] reads it back until it expires.  The entry holds the quote
    itself, [quote.json()] and [Quote.parse_raw] being inverse to each
    other. *)
Record entry : Type := Entry {
  value : Quote;
  expires : Z
}.

(** What the coroutines share: the cache, the clock (in seconds), and the
    requests the provider has received, oldest first. *)
Record world : Type := World {
  cache : gmap string entry;
  clock : Z;
  provider_calls : list string
}.

(** Modelled from the spec: [RedisCache.get], an entry is served until it
    expires. *)
Definition cache_get (w : world) (key : string) : option Quote :=
  match cache w !! key with
  | Some e => if clock w <? expires e then Some (value e) else None
  | None => None
  end.

(** Modelled from the spec: [RedisCache.set], the entry of the key is
    created or overwritten and lives for [ttl] seconds. *)
Definition cache_set (w : world) (key : string) (q : Quote) (ttl : Z) : world :=
  {| cache := <[key := {| value := q; expires := clock w + ttl |}]> (cache w);
     clock := clock w;
     provider_calls := provider_calls w |}.

(** [f"quote:{symbol}"] *)
Definition cache_key (symbol : string) : string := "quote:" +:+ symbol.

(** Where a running [get_quote(symbol)] stands: each constructor but the
    last is the [await] it is about to perform. *)
Inductive coroutine : Type :=
| Lookup (symbol : string)
| Fetch (symbol : string)
| Store (symbol : string) (quote : Quote)
| Returned (quote : Quote).

Section Provider.

(** What Finnhub answers to a quote request for a symbol at a time. *)
Variable finnhub : string -> Z -> payload.

Definition to_quote (symbol : string) (data : payload) : Quote :=
  {| symbol := symbol; price := c data; change := d data;
     change_percent := dp data; high := h data; low := l data;
     open := o data; previous_close := pc data; timestamp := t data |}.

(** One resumption of a coroutine: it runs up to its next [await]. *)
Definition step (w : world) (co : coroutine) : world * coroutine :=
  match co with
  | Lookup s =>
      match cache_get w (cache_key s) with
      | Some cached => (w, Returned cached)
      | None => (w, Fetch s)
      end
  | Fetch s =>
      ({| cache := cache w; clock := clock w;
          provider_calls := provider_calls w ++ [s] |},
       Store s (to_quote s (finnhub s (clock w))))
  | Store s quote => (cache_set w (cache_key s) quote 60, Returned quote)
  | Returned quote => (w, Returned quote)
  end.

(** The event loop resumes one coroutine at a time; time passes between
    resumptions. *)
Inductive event : Type :=
| Run (i : nat)
| Tick (seconds : Z).

Definition exec (st : world * list coroutine) (ev : event)
  : world * list coroutine :=
  let (w, tasks) := st in
  match ev with
  | Run i =>
      match tasks !! i with
      | Some co => let (w', co') := step w co in (w', <[i := co']> tasks)
      | None => st
      end
  | Tick seconds =>
      ({| cache := cache w; clock := clock w + seconds;
          provider_calls := provider_calls w |}, tasks)
  end.

Definition run (st : world * list coroutine) (schedule : list event)
  : world * list coroutine :=
  fold_left exec schedule st.

(** Two calls one after the other, [gap] seconds apart. *)
Definition sequential (gap : Z) : list event :=
  [Run 0; Run 0; Run 0; Tick gap; Run 1; Run 1; Run 1]%nat.

(** Two calls whose cache lookups both run before either stores. *)
Definition overlapping : list event :=
  [Run 0; Run 1; Run 0; Run 1; Run 0; Run 1]%nat.

Lemma cache_get_fresh (m : gmap string entry) (key : string) (q : Quote)
    (e now : Z) (calls : list string) :
  now < e ->
  cache_get {| cache := <[key := {| value := q; expires := e |}]> m;
               clock := now; provider_calls := calls |} key = Some q.
Proof.
  intros H. unfold cache_get. cbn [cache clock].
  rewrite lookup_insert_eq. cbn [expires value].
  destruct (Z.ltb_spec now e); [reflexivity|lia].
Qed.

(** Resume the coroutines of a schedule one after the other. *)
Ltac resume :=
  cbn [fold_left exec lookup list_lookup insert list_insert step fst snd
       cache_set clock cache provider_calls].

(** *** Every schedule of two calls *)

(** How often a schedule resumes the coroutine [i]. *)
Definition runs (i : nat) (schedule : list event) : nat :=
  length (List.filter (fun ev => match ev with
                                 | Run j => Nat.eqb i j
                                 | Tick _ => false
                                 end) schedule).

(** The time that passes during a schedule. *)
Definition elapsed (schedule : list event) : Z :=
  fold_right (fun ev acc => match ev with
                            | Tick seconds => seconds + acc
                            | Run _ => acc
                            end) 0 schedule.

(** Time does not run backwards. *)
Definition forward (schedule : list event) : Prop :=
  Forall (fun ev => match ev with
                    | Tick seconds => 0 <= seconds
                    | Run _ => True
                    end) schedule.

Lemma runs_app (i : nat) (l1 l2 : list event) :
  runs i (l1 ++ l2) = (runs i l1 + runs i l2)%nat.
Proof. unfold runs. rewrite List.filter_app. apply length_app. Qed.

Lemma run_app (st : world * list coroutine) (l1 l2 : list event) :
  run st (l1 ++ l2) = run (run st l1) l2.
Proof. unfold run. apply fold_left_app. Qed.

Section TwoCalls.

Variable s : string.
Variable base : list string.

(** How far a call has come: before its lookup, before its fetch, before
    its store, returned. *)
Definition at_stage (m : nat) (co : coroutine) : Prop :=
  match m with
  | 0%nat => co = Lookup s
  | 1%nat => co = Fetch s
  | 2%nat => exists q, co = Store s q
  | _ => exists q, co = Returned q
  end.

Definition asked (m : nat) : nat := if (2 <=? m)%nat then 1%nat else 0%nat.

(** Two calls at the stages [m0] and [m1]; the provider has been asked
    once by each call that is past its fetch. *)
Definition stages (m0 m1 : nat) (st : world * list coroutine) : Prop :=
  exists c0 c1,
    st.2 = [c0; c1] /\ at_stage m0 c0 /\ at_stage m1 c1
    /\ provider_calls st.1 = base ++ replicate (asked m0 + asked m1) s.

Definition dead (w : world) : Prop := cache_get w (cache_key s) = None.

Lemma dead_tick (w : world) (seconds : Z) :
  dead w -> 0 <= seconds ->
  dead {| cache := cache w; clock := clock w + seconds;
          provider_calls := provider_calls w |}.
Proof.
  unfold dead, cache_get. cbn [cache clock]. intros H Hs.
  destruct (cache w !! cache_key s) as [e|]; [|reflexivity].
  destruct (Z.ltb_spec (clock w) (expires e)); [discriminate|].
  destruct (Z.ltb_spec (clock w + seconds) (expires e)); [lia|reflexivity].
Qed.

Lemma replicate_snoc (n : nat) :
  replicate n s ++ [s] = replicate (S n) s.
Proof. induction n as [|n IH]; [reflexivity|]. cbn. rewrite IH. reflexivity. Qed.

(** While neither call has stored, a call that looks the key up misses:
    every resumption moves its call one stage on. *)
Lemma stages_before_store (schedule : list event) :
  forall (st : world * list coroutine) (m0 m1 : nat),
    stages m0 m1 st -> dead st.1 -> forward schedule ->
    (m0 + runs 0 schedule <= 2)%nat -> (m1 + runs 1 schedule <= 2)%nat ->
    stages (m0 + runs 0 schedule) (m1 + runs 1 schedule) (run st schedule)
    /\ dead (run st schedule).1.
Proof.
  induction schedule as [|ev rest IH]; intros [w tasks] m0 m1 Hst Hdead Hfw H0 H1.
  { cbn [runs List.filter length run fold_left]. rewrite !Nat.add_0_r. auto. }
  apply Forall_cons in Hfw as [Hev Hfw].
  destruct Hst as (c0 & c1 & Htasks & Hc0 & Hc1 & Hcalls).
  cbn [fst snd] in *. subst tasks.
  change (run (w, [c0; c1]) (ev :: rest))
    with (run (exec (w, [c0; c1]) ev) rest).
  destruct ev as [[|[|i]]|seconds].
  - (* the first call is resumed *)
    change (runs 0 (Run 0 :: rest)) with (S (runs 0 rest)) in *.
    change (runs 1 (Run 0 :: rest)) with (runs 1 rest) in *.
    rewrite Nat.add_succ_r in *.
    destruct m0 as [|[|m0]]; [| |lia]; cbn [at_stage] in Hc0; subst c0.
    + cbn [exec lookup list_lookup step]. unfold dead in Hdead.
      cbn [fst] in Hdead. rewrite Hdead.
      cbn [insert list_insert].
      apply (IH (w, [Fetch s; c1]) 1%nat m1); cbn [fst snd]; auto.
      exists (Fetch s), c1. cbn [fst snd]. repeat split; auto.
    + cbn [exec lookup list_lookup step insert list_insert].
      apply (IH (_, [Store s _; c1]) 2%nat m1); cbn [fst snd]; auto.
      eexists (Store s _), c1. cbn [fst snd provider_calls].
      repeat split; cbn [at_stage]; eauto.
      rewrite Hcalls. cbn [asked Nat.leb Nat.add].
      rewrite <- app_assoc, replicate_snoc. reflexivity.
  - (* the second call is resumed *)
    change (runs 0 (Run 1 :: rest)) with (runs 0 rest) in *.
    change (runs 1 (Run 1 :: rest)) with (S (runs 1 rest)) in *.
    rewrite Nat.add_succ_r in *.
    destruct m1 as [|[|m1]]; [| |lia]; cbn [at_stage] in Hc1; subst c1.
    + cbn [exec lookup list_lookup step]. unfold dead in Hdead.
      cbn [fst] in Hdead. rewrite Hdead.
      cbn [insert list_insert].
      apply (IH (w, [c0; Fetch s]) m0 1%nat); cbn [fst snd]; auto.
      exists c0, (Fetch s). cbn [fst snd]. repeat split; auto.
    + cbn [exec lookup list_lookup step insert list_insert].
      apply (IH (_, [c0; Store s _]) m0 2%nat); cbn [fst snd]; auto.
      eexists c0, (Store s _). cbn [fst snd provider_calls].
      repeat split; cbn [at_stage]; eauto. rewrite Hcalls. cbn [asked Nat.leb].
      rewrite Nat.add_0_r, <- app_assoc, replicate_snoc, Nat.add_1_r.
      reflexivity.
  - (* no such coroutine *)
    change (runs 0 (Run (S (S i)) :: rest)) with (runs 0 rest) in *.
    change (runs 1 (Run (S (S i)) :: rest)) with (runs 1 rest) in *.
    cbn [exec lookup list_lookup].
    apply (IH (w, [c0; c1]) m0 m1); cbn [fst snd]; auto.
    exists c0, c1. cbn [fst snd]. repeat split; auto.
  - (* time passes *)
    change (runs 0 (Tick seconds :: rest)) with (runs 0 rest) in *.
    change (runs 1 (Tick seconds :: rest)) with (runs 1 rest) in *.
    cbn [exec].
    apply (IH (_, [c0; c1]) m0 m1); cbn [fst snd]; auto.
    + exists c0, c1. cbn [fst snd provider_calls]. repeat split; auto.
    + apply dead_tick; assumption.
Qed.

(** Once both calls are past their lookup, whatever the cache holds, each
    resumption moves its call one stage on until it has returned. *)
Lemma stages_after_lookup (schedule : list event) :
  forall (st : world * list coroutine) (m0 m1 : nat),
    stages m0 m1 st -> (1 <= m0)%nat -> (1 <= m1)%nat ->
    stages (m0 + runs 0 schedule) (m1 + runs 1 schedule) (run st schedule).
Proof.
  induction schedule as [|ev rest IH]; intros [w tasks] m0 m1 Hst H0 H1.
  { cbn [runs List.filter length run fold_left]. rewrite !Nat.add_0_r. auto. }
  destruct Hst as (c0 & c1 & Htasks & Hc0 & Hc1 & Hcalls).
  cbn [fst snd] in *. subst tasks.
  change (run (w, [c0; c1]) (ev :: rest))
    with (run (exec (w, [c0; c1]) ev) rest).
  destruct ev as [[|[|i]]|seconds].
  - change (runs 0 (Run 0 :: rest)) with (S (runs 0 rest)).
    change (runs 1 (Run 0 :: rest)) with (runs 1 rest).
    rewrite Nat.add_succ_r.
    destruct m0 as [|[|[|m0]]]; [lia| | |]; cbn [at_stage] in Hc0.
    + subst c0. cbn [exec lookup list_lookup step insert list_insert].
      apply (IH (_, [Store s _; c1]) 2%nat m1); [|lia|lia].
      eexists (Store s _), c1. cbn [fst snd provider_calls].
      repeat split; cbn [at_stage]; eauto.
      rewrite Hcalls. cbn [asked Nat.leb Nat.add].
      rewrite <- app_assoc, replicate_snoc. reflexivity.
    + destruct Hc0 as [q ->].
      cbn [exec lookup list_lookup step insert list_insert].
      apply (IH (_, [Returned q; c1]) 3%nat m1); [|lia|lia].
      exists (Returned q), c1. cbn [fst snd provider_calls cache_set].
      repeat split; cbn [at_stage]; eauto.
    + destruct Hc0 as [q ->].
      cbn [exec lookup list_lookup step insert list_insert].
      apply (IH (_, [Returned q; c1]) (S (S (S (S m0)))) m1); [|lia|lia].
      exists (Returned q), c1. cbn [fst snd]. repeat split; cbn [at_stage]; eauto.
  - change (runs 0 (Run 1 :: rest)) with (runs 0 rest).
    change (runs 1 (Run 1 :: rest)) with (S (runs 1 rest)).
    rewrite Nat.add_succ_r.
    destruct m1 as [|[|[|m1]]]; [lia| | |]; cbn [at_stage] in Hc1.
    + subst c1. cbn [exec lookup list_lookup step insert list_insert].
      apply (IH (_, [c0; Store s _]) m0 2%nat); [|lia|lia].
      eexists c0, (Store s _). cbn [fst snd provider_calls].
      repeat split; cbn [at_stage]; eauto. rewrite Hcalls.
      replace (asked m0 + asked 1)%nat with (asked m0) by (cbn; lia).
      replace (asked m0 + asked 2)%nat with (S (asked m0)) by (cbn; lia).
      rewrite <- app_assoc, replicate_snoc. reflexivity.
    + destruct Hc1 as [q ->].
      cbn [exec lookup list_lookup step insert list_insert].
      apply (IH (_, [c0; Returned q]) m0 3%nat); [|lia|lia].
      exists c0, (Returned q). cbn [fst snd provider_calls cache_set].
      repeat split; cbn [at_stage]; eauto.
    + destruct Hc1 as [q ->].
      cbn [exec lookup list_lookup step insert list_insert].
      apply (IH (_, [c0; Returned q]) m0 (S (S (S (S m1))))); [|lia|lia].
      exists c0, (Returned q). cbn [fst snd]. repeat split; cbn [at_stage]; eauto.
  - change (runs 0 (Run (S (S i)) :: rest)) with (runs 0 rest).
    change (runs 1 (Run (S (S i)) :: rest)) with (runs 1 rest).
    cbn [exec lookup list_lookup].
    apply (IH (w, [c0; c1]) m0 m1); [|lia|lia].
    exists c0, c1. cbn [fst snd]. repeat split; auto.
  - change (runs 0 (Tick seconds :: rest)) with (runs 0 rest).
    change (runs 1 (Tick seconds :: rest)) with (runs 1 rest).
    cbn [exec].
    apply (IH (_, [c0; c1]) m0 m1); [|lia|lia].
    exists c0, c1. cbn [fst snd provider_calls]. repeat split; auto.
Qed.

(** One call has stored the quote [q], to be served until [e]; the other
    has not looked the key up yet. *)
Definition stored (first : nat) (q : Quote) (e now : Z)
    (st : world * list coroutine) : Prop :=
  st.2 = <[first := Returned q]> [Lookup s; Lookup s]
  /\ cache st.1 !! cache_key s = Some {| value := q; expires := e |}
  /\ clock st.1 = now
  /\ provider_calls st.1 = base ++ [s].

Lemma stored_waits (first second : nat) (q : Quote) (e : Z)
    (schedule : list event) :
  first <> second -> (first < 2)%nat -> (second < 2)%nat ->
  forall (st : world * list coroutine) (now : Z),
    stored first q e now st -> runs second schedule = 0%nat ->
    stored first q e (now + elapsed schedule) (run st schedule).
Proof.
  intros Hne Hf Hs.
  induction schedule as [|ev rest IH]; intros [w tasks] now Hst Hruns.
  { cbn [elapsed fold_right run fold_left]. rewrite Z.add_0_r. exact Hst. }
  destruct Hst as (Htasks & Hcache & Hclock & Hcalls).
  cbn [fst snd] in *. subst tasks.
  change (run (w, <[first := Returned q]> [Lookup s; Lookup s]) (ev :: rest))
    with (run (exec (w, <[first := Returned q]> [Lookup s; Lookup s]) ev) rest).
  destruct ev as [i|seconds].
  - assert (Hi : i <> second).
    { intros ->. unfold runs in Hruns. cbn [List.filter] in Hruns.
      rewrite Nat.eqb_refl in Hruns. discriminate Hruns. }
    assert (Hrest : runs second rest = 0%nat).
    { unfold runs in *. cbn [List.filter] in Hruns.
      destruct (Nat.eqb_spec second i); [congruence|exact Hruns]. }
    change (elapsed (Run i :: rest)) with (elapsed rest).
    apply IH; [|exact Hrest].
    assert (Hexec : exec (w, <[first := Returned q]> [Lookup s; Lookup s])
                      (Run i)
                    = (w, <[first := Returned q]> [Lookup s; Lookup s])).
    { destruct first as [|[|first]]; [| |lia];
        destruct second as [|[|second]]; try lia; try congruence;
        destruct i as [|[|i]]; try congruence; reflexivity. }
    rewrite Hexec. repeat split; assumption.
  - change (elapsed (Tick seconds :: rest)) with (seconds + elapsed rest).
    replace (now + (seconds + elapsed rest))
      with ((now + seconds) + elapsed rest) by lia.
    assert (Hrest : runs second rest = 0%nat) by exact Hruns.
    apply IH; [|exact Hrest].
    cbn [exec]. repeat split; cbn [fst snd cache clock provider_calls];
      auto. lia.
Qed.

(** Calls that have returned are not moved by anything. *)
Lemma returned_stays (q0 q1 : Quote) (schedule : list event) :
  forall w : world,
    (run (w, [Returned q0; Returned q1]) schedule).2
    = [Returned q0; Returned q1]
    /\ provider_calls (run (w, [Returned q0; Returned q1]) schedule).1
       = provider_calls w.
Proof.
  induction schedule as [|ev rest IH]; intros w; [split; reflexivity|].
  change (run (w, [Returned q0; Returned q1]) (ev :: rest))
    with (run (exec (w, [Returned q0; Returned q1]) ev) rest).
  destruct ev as [[|[|i]]|seconds];
    cbn [exec lookup list_lookup step insert list_insert]; exact (IH _).
Qed.

End TwoCalls.

(** Up to the moment before the other call's lookup: one call has
    stored its quote, and [elapsed between] seconds have passed since. *)
Lemma run_to_lookup (w : world) (s : string) (first second : nat)
    (before between : list event) :
  cache_get w (cache_key s) = None ->
  first <> second -> (first < 2)%nat -> (second < 2)%nat ->
  forward before ->
  runs first before = 2%nat -> runs second before = 0%nat ->
  runs second between = 0%nat ->
  exists (q : Quote) (stored_at : Z),
    stored s (provider_calls w) first q (stored_at + 60)
      (stored_at + elapsed between)
      (run (w, [Lookup s; Lookup s]) (before ++ Run first :: between)).
Proof.
  intros Hmiss Hne Hf Hs Hfw Hr1 Hr2 Hb.
  assert (Hcases : (first = 0 /\ second = 1 \/ first = 1 /\ second = 0)%nat)
    by lia.
  assert (Hinit : stages s (provider_calls w) 0 0 (w, [Lookup s; Lookup s])).
  { exists (Lookup s), (Lookup s). cbn. rewrite app_nil_r. repeat split. }
  destruct (stages_before_store s (provider_calls w) before
              (w, [Lookup s; Lookup s]) 0 0 Hinit Hmiss Hfw)
    as [Hmid Hdead];
    [destruct Hcases as [[-> ->]|[-> ->]]; lia
    |destruct Hcases as [[-> ->]|[-> ->]]; lia|].
  rewrite run_app.
  destruct (run (w, [Lookup s; Lookup s]) before) as [w1 tasks1].
  destruct Hmid as (c0 & c1 & Htasks & Hc0 & Hc1 & Hcalls).
  cbn [fst snd Nat.add] in *. subst tasks1.
  assert (Hstore : exists q,
             stored s (provider_calls w) first q (clock w1 + 60) (clock w1)
               (exec (w1, [c0; c1]) (Run first))).
  { destruct Hcases as [[-> ->]|[-> ->]].
    - rewrite Hr1, Hr2 in *. cbn [at_stage] in *.
      destruct Hc0 as [q ->]. subst c1. exists q.
      cbn [exec lookup list_lookup step insert list_insert].
      unfold stored, cache_set. cbn [fst snd cache clock provider_calls].
      rewrite lookup_insert_eq. repeat split. exact Hcalls.
    - rewrite Hr1, Hr2 in *. cbn [at_stage] in *.
      destruct Hc1 as [q ->]. subst c0. exists q.
      cbn [exec lookup list_lookup step insert list_insert].
      unfold stored, cache_set. cbn [fst snd cache clock provider_calls].
      rewrite lookup_insert_eq. repeat split. exact Hcalls. }
  destruct Hstore as [q Hstored]. exists q, (clock w1).
  change (run (w1, [c0; c1]) (Run first :: between))
    with (run (exec (w1, [c0; c1]) (Run first)) between).
  exact (stored_waits s (provider_calls w) first second q
           (clock w1 + 60) between Hne Hf Hs _ _ Hstored Hb).
Qed.

(** C7 (as amended): two [get_quote] calls for the same symbol, with no
    live entry in the cache, under every schedule of the event loop.
    Whenever one call has stored its quote before the other looks the key
    up, and less than 60 seconds pass in between, exactly one provider
    call is issued and both calls return the stored quote, however the
    rest of the schedule runs; when 60 seconds or more pass in between,
    the other call asks the provider again.  Whenever both calls look
    the key up before either has stored, each issues its own provider
    call, in whatever order their later steps are resumed: a call does
    not attach to a fetch that is in flight. *)
Theorem one_fetch_when_sequential (w : world) (s : string) :
  cache_get w (cache_key s) = None ->
  (forall (first second : nat) (before between after : list event),
      first <> second -> (first < 2)%nat -> (second < 2)%nat ->
      forward before ->
      runs first before = 2%nat -> runs second before = 0%nat ->
      runs second between = 0%nat ->
      (elapsed between < 60 ->
       exists q : Quote,
         (run (w, [Lookup s; Lookup s])
            (before ++ Run first :: between ++ Run second :: after)).2
         = [Returned q; Returned q]
         /\ provider_calls
              (run (w, [Lookup s; Lookup s])
                 (before ++ Run first :: between ++ Run second :: after)).1
            = provider_calls w ++ [s])
      /\ (60 <= elapsed between -> (2 <= runs second after)%nat ->
          exists q0 q1 : Quote,
            (run (w, [Lookup s; Lookup s])
               (before ++ Run first :: between ++ Run second :: after)).2
            = [Returned q0; Returned q1]
            /\ provider_calls
                 (run (w, [Lookup s; Lookup s])
                    (before ++ Run first :: between ++ Run second :: after)).1
               = provider_calls w ++ [s; s]))
  /\ (forall before after : list event,
        forward before ->
        (1 <= runs 0 before <= 2)%nat -> (1 <= runs 1 before <= 2)%nat ->
        (3 <= runs 0 (before ++ after))%nat ->
        (3 <= runs 1 (before ++ after))%nat ->
        exists q0 q1 : Quote,
          (run (w, [Lookup s; Lookup s]) (before ++ after)).2
          = [Returned q0; Returned q1]
          /\ provider_calls (run (w, [Lookup s; Lookup s]) (before ++ after)).1
             = provider_calls w ++ [s; s]).
Proof.
  intros Hmiss. split.
  - intros first second before between after Hne Hf Hs Hfw Hr1 Hr2 Hb.
    assert (Hcases : (first = 0 /\ second = 1 \/ first = 1 /\ second = 0)%nat)
      by lia.
    destruct (run_to_lookup w s first second before between
                Hmiss Hne Hf Hs Hfw Hr1 Hr2 Hb) as (q & stored_at & Hwait).
    replace (before ++ Run first :: between ++ Run second :: after)
      with ((before ++ Run first :: between) ++ Run second :: after)
      by (rewrite <- app_assoc; reflexivity).
    rewrite run_app.
    destruct (run (w, [Lookup s; Lookup s]) (before ++ Run first :: between))
      as [w2 tasks2].
    destruct Hwait as (Htasks2 & Hcache2 & Hclock2 & Hcalls2).
    cbn [fst snd] in *. subst tasks2.
    change (run (w2, <[first := Returned q]> [Lookup s; Lookup s])
              (Run second :: after))
      with (run (exec (w2, <[first := Returned q]> [Lookup s; Lookup s])
                   (Run second)) after).
    split.
    + (* the entry is still served *)
      intros He. exists q.
      assert (Hhit : cache_get w2 (cache_key s) = Some q).
      { unfold cache_get. rewrite Hcache2. cbn [expires value].
        destruct (Z.ltb_spec (clock w2) (stored_at + 60)); [reflexivity|lia]. }
      assert (Hexec : exec (w2, <[first := Returned q]> [Lookup s; Lookup s])
                        (Run second)
                      = (w2, [Returned q; Returned q])).
      { destruct Hcases as [[-> ->]|[-> ->]];
          cbn [exec lookup list_lookup step insert list_insert];
          rewrite Hhit; reflexivity. }
      rewrite Hexec.
      destruct (returned_stays q q after w2) as [Ht Hc].
      rewrite Ht, Hc, Hcalls2. split; reflexivity.
    + (* the entry has expired *)
      intros He Hafter.
      assert (Hgone : cache_get w2 (cache_key s) = None).
      { unfold cache_get. rewrite Hcache2. cbn [expires value].
        destruct (Z.ltb_spec (clock w2) (stored_at + 60)); [lia|reflexivity]. }
      assert (Hexec : exec (w2, <[first := Returned q]> [Lookup s; Lookup s])
                        (Run second)
                      = (w2, <[second := Fetch s]>
                               (<[first := Returned q]> [Lookup s; Lookup s]))).
      { destruct Hcases as [[-> ->]|[-> ->]];
          cbn [exec lookup list_lookup step insert list_insert];
          rewrite Hgone; reflexivity. }
      rewrite Hexec.
      destruct Hcases as [[-> ->]|[-> ->]]; cbn [insert list_insert] in *.
      * assert (Hst : stages s (provider_calls w) 3 1
                        (w2, [Returned q; Fetch s])).
        { exists (Returned q), (Fetch s). cbn [fst snd at_stage].
          repeat split; eauto. }
        pose proof (stages_after_lookup s (provider_calls w) after _ 3%nat
                      1%nat Hst) as Hend.
        destruct Hend as (c0 & c1 & Htasks & Hc0 & Hc1 & Hcalls); [lia|lia|].
        destruct (runs 1 after) as [|[|n1]]; try lia.
        cbn [Nat.add at_stage] in Hc0, Hc1.
        destruct Hc0 as [q0 ->]. destruct Hc1 as [q1 ->].
        exists q0, q1. split; [exact Htasks|]. rewrite Hcalls. reflexivity.
      * assert (Hst : stages s (provider_calls w) 1 3
                        (w2, [Fetch s; Returned q])).
        { exists (Fetch s), (Returned q). cbn [fst snd at_stage].
          repeat split; eauto. }
        pose proof (stages_after_lookup s (provider_calls w) after _ 1%nat
                      3%nat Hst) as Hend.
        destruct Hend as (c0 & c1 & Htasks & Hc0 & Hc1 & Hcalls); [lia|lia|].
        destruct (runs 0 after) as [|[|n0]]; try lia.
        cbn [Nat.add at_stage] in Hc0, Hc1.
        destruct Hc0 as [q0 ->]. destruct Hc1 as [q1 ->].
        exists q0, q1. split; [exact Htasks|]. rewrite Hcalls. reflexivity.
  - intros before after Hfw H0 H1 H0' H1'.
    assert (Hinit : stages s (provider_calls w) 0 0 (w, [Lookup s; Lookup s])).
    { exists (Lookup s), (Lookup s). cbn. rewrite app_nil_r. repeat split. }
    destruct (stages_before_store s (provider_calls w) before
                (w, [Lookup s; Lookup s]) 0 0 Hinit Hmiss Hfw)
      as [Hmid _]; [lia|lia|].
    cbn [Nat.add] in Hmid.
    pose proof (stages_after_lookup s (provider_calls w) after _ _ _ Hmid
                  (proj1 H0) (proj1 H1)) as Hend.
    rewrite <- run_app, <- !runs_app in Hend.
    destruct Hend as (c0 & c1 & Htasks & Hc0 & Hc1 & Hcalls).
    destruct (runs 0 (before ++ after)) as [|[|[|n0]]]; try lia.
    destruct (runs 1 (before ++ after)) as [|[|[|n1]]]; try lia.
    cbn [at_stage] in Hc0, Hc1.
    destruct Hc0 as [q0 ->]. destruct Hc1 as [q1 ->].
    exists q0, q1. split; [exact Htasks|]. rewrite Hcalls. reflexivity.
Qed.

End Provider.

(** *** A concrete provider *)

Definition flat_quote (symbol : string) (now : Z) : payload :=
  {| c := 190; d := 1; dp := 0.5; h := 191; l := 188; o := 189; pc := 189;
     t := 1700000000 |}.

Definition cold : world := {| cache := ∅; clock := 0; provider_calls := [] |}.

(** Two calls for AAPL on a cold cache. *)
Lemma one_fetch_when_sequential_witness :
  cache_get cold (cache_key "AAPL") = None
  /\ (forall (first second : nat) (before between after : list event),
        first <> second -> (first < 2)%nat -> (second < 2)%nat ->
        forward before ->
        runs first before = 2%nat -> runs second before = 0%nat ->
        runs second between = 0%nat ->
        (elapsed between < 60 ->
         exists q : Quote,
           (run flat_quote (cold, [Lookup "AAPL"; Lookup "AAPL"])
              (before ++ Run first :: between ++ Run second :: after)).2
           = [Returned q; Returned q]
           /\ provider_calls
                (run flat_quote (cold, [Lookup "AAPL"; Lookup "AAPL"])
                   (before ++ Run first :: between ++ Run second :: after)).1
              = provider_calls cold ++ ["AAPL"])
        /\ (60 <= elapsed between -> (2 <= runs second after)%nat ->
            exists q0 q1 : Quote,
              (run flat_quote (cold, [Lookup "AAPL"; Lookup "AAPL"])
                 (before ++ Run first :: between ++ Run second :: after)).2
              = [Returned q0; Returned q1]
              /\ provider_calls
                   (run flat_quote (cold, [Lookup "AAPL"; Lookup "AAPL"])
                      (before ++ Run first :: between
                       ++ Run second :: after)).1
                 = provider_calls cold ++ ["AAPL"; "AAPL"]))
  /\ (forall before after : list event,
        forward before ->
        (1 <= runs 0 before <= 2)%nat -> (1 <= runs 1 before <= 2)%nat ->
        (3 <= runs 0 (before ++ after))%nat ->
        (3 <= runs 1 (before ++ after))%nat ->
        exists q0 q1 : Quote,
          (run flat_quote (cold, [Lookup "AAPL"; Lookup "AAPL"])
             (before ++ after)).2
          = [Returned q0; Returned q1]
          /\ provider_calls
               (run flat_quote (cold, [Lookup "AAPL"; Lookup "AAPL"])
                  (before ++ after)).1
             = provider_calls cold ++ ["AAPL"; "AAPL"]).
Proof.
  split; [reflexivity|].
  apply (one_fetch_when_sequential flat_quote cold "AAPL"). reflexivity.
Defined.

(** The two schedules above are instances: a second call 30 seconds after
    the first, and two calls resumed in turn. *)
Example sequential_within_ttl :
  sequential 30 = [Run 0; Run 0] ++ Run 0 :: [Tick 30] ++ Run 1 :: [Run 1; Run 1]
  /\ provider_calls
       (run flat_quote (cold, [Lookup "AAPL"; Lookup "AAPL"]) (sequential 30)).1
     = ["AAPL"].
Proof. split; reflexivity. Qed.

(** A second call 60 seconds after the first finds the entry expired. *)
Example sequential_after_ttl :
  provider_calls
    (run flat_quote (cold, [Lookup "AAPL"; Lookup "AAPL"]) (sequential 60)).1
  = ["AAPL"; "AAPL"].
Proof. reflexivity. Qed.

(** The first call fetches, the second looks the key up and misses, the
    first stores: the second fetches too. *)
Example lookup_during_fetch :
  provider_calls
    (run flat_quote (cold, [Lookup "AAPL"; Lookup "AAPL"])
       ([Run 0; Run 0; Run 1] ++ [Run 0; Run 1; Run 1])).1
  = ["AAPL"; "AAPL"]
  /\ runs 0 [Run 0; Run 0; Run 1] = 2%nat
  /\ runs 1 [Run 0; Run 0; Run 1] = 1%nat.
Proof. repeat split; reflexivity. Qed.

(** C7, counterexample: two [get_quote("AAPL")] calls on a cold cache,
    resumed in turn.  Both look the key up and miss before either has
    stored anything, so both ask the provider: two provider calls for the
    one key, and both coroutines return. *)
Lemma concurrent_calls_fetch_twice :
  provider_calls
    (run flat_quote (cold, [Lookup "AAPL"; Lookup "AAPL"]) overlapping).1
  = ["AAPL"; "AAPL"]
  /\ (run flat_quote (cold, [Lookup "AAPL"; Lookup "AAPL"]) overlapping).2
     = [Returned (to_quote "AAPL" (flat_quote "AAPL" 0));
        Returned (to_quote "AAPL" (flat_quote "AAPL" 0))].
Proof. vm_compute. split; reflexivity. Qed.

(** *** get_batch_quotes *)

(** How long the three [await]s of one [get_quote] take: the cache
    lookup, the provider call, the cache store. *)
Record waits : Type := Waits {
  for_lookup : Z;
  for_provider : Z;
  for_store : Z
}.

Definition pass (w : world) (seconds : Z) : world :=
  {| cache := cache w; clock := clock w + seconds;
     provider_calls := provider_calls w |}.

Section Batch.

Variable finnhub : string -> Z -> payload.

(** The waits of the [i]-th call of a batch. *)
Variable timing : nat -> waits.

(** [get_quote(symbol)] run on its own, from its first [await] to its
    [return], each [await] taking its time: the world afterwards and the
    quote returned. *)
Definition get_quote (w : world) (s : string) (t : waits) : world * Quote :=
  let w := pass w (for_lookup t) in
  match cache_get w (cache_key s) with
  | Some cached => (w, cached)
  | None =>
      let w := pass w (for_provider t) in
      let quote := to_quote s (finnhub s (clock w)) in
      let w := {| cache := cache w; clock := clock w;
                  provider_calls := provider_calls w ++ [s] |} in
      let w := pass w (for_store t) in
      (cache_set w (cache_key s) quote 60, quote)
  end.

(** The loop of [get_batch_quotes], from its [i]-th call on: one
    [get_quote] after the other, each awaited before the next starts. *)
Fixpoint batch_from (i : nat) (w : world) (symbols : list string)
  : world * list Quote :=
  match symbols with
  | [] => (w, [])
  | s :: rest =>
      let (w1, quote) := get_quote w s (timing i) in
      let (w2, quotes) := batch_from (S i) w1 rest in
      (w2, quote :: quotes)
  end.

(** [get_batch_quotes(symbols)] *)
Definition get_batch_quotes (w : world) (symbols : list string)
  : world * list Quote :=
  batch_from 0 w symbols.


(** [get_quote] is the coroutine of the event loop, resumed once on a hit
    and three times on a miss, the waits passing before each
    resumption. *)
Lemma get_quote_steps (w : world) (s : string) (t : waits) :
  run finnhub (w, [Lookup s])
    (match cache_get (pass w (for_lookup t)) (cache_key s) with
     | Some _ => [Tick (for_lookup t); Run 0]
     | None => [Tick (for_lookup t); Run 0; Tick (for_provider t); Run 0;
                Tick (for_store t); Run 0]
     end)
  = ((get_quote w s t).1, [Returned (get_quote w s t).2]).
Proof.
  unfold run, get_quote. fold (pass w (for_lookup t)).
  destruct (cache_get (pass w (for_lookup t)) (cache_key s)) as [cached|] eqn:E;
    cbn [fold_left exec]; fold (pass w (for_lookup t));
    cbn [lookup list_lookup step]; rewrite E; reflexivity.
Qed.











End Batch.

(** Every call waits one second for the cache, two for the provider and
    one for the store. *)
Definition brisk (i : nat) : waits :=
  {| for_lookup := 1; for_provider := 2; for_store := 1 |}.

(** Every call waits 40 seconds for the cache. *)
Definition sluggish (i : nat) : waits :=
  {| for_lookup := 40; for_provider := 0; for_store := 0 |}.


Example batch_of_four :
  provider_calls
    (get_batch_quotes flat_quote brisk cold
       ["AAPL"; "MSFT"; "AAPL"; "NVDA"]).1
  = ["AAPL"; "MSFT"; "NVDA"].
Proof. vm_compute. reflexivity. Qed.

(** A batch that outlasts the TTL asks again: AAPL is stored after 40
    seconds, to be served until 100, and looked up again after 120. *)
Example slow_batch_fetches_again :
  provider_calls
    (get_batch_quotes flat_quote sluggish cold ["AAPL"; "MSFT"; "AAPL"]).1
  = ["AAPL"; "MSFT"; "AAPL"]
  /\ clock (get_batch_quotes flat_quote sluggish cold
              ["AAPL"; "MSFT"; "AAPL"]).1 = 120.
Proof. vm_compute. split; reflexivity. Qed.

End MarketData.

(* ===================================================================== *)
(** ** plans/implementation-plan.md: prediction and optimization *)
(* ===================================================================== *)

Module Optimization.

#[local] Open Scope Q_scope.

(** Python exceptions, as far as the code and the specification tell them
    apart. *)
Inductive error : Type :=
| ValueError (message : string)
| KeyError (key : string)
| AttributeError (name : string)
| ExternalError (message : string)
| OptimizationInfeasible.

Inductive result (A : Type) : Type :=
| Ok (a : A)
| Raise (e : error).
Arguments Ok {A} a.
Arguments Raise {A} e.

Definition bind {A B} (m : result A) (k : A -> result B) : result B :=
  match m with
  | Ok a => k a
  | Raise e => Raise e
  end.

#[local] Notation "'let*' x ':=' m 'in' k" := (bind m (fun x => k))
  (at level 10, x name, m at level 100, k at level 200).

(** Numbers of this part are read as exact rationals. *)
Definition predictions : Type := gmap string Q.

(** *** PortfolioOptimizer: train_model and predict_returns *)

Record Alpha158 : Type := MkAlpha158 {
  start_time : string;
  end_time : string;
  fit_start_time : string;
  fit_end_time : string;
  instruments : string
}.

(** The ALSTM object, by its constructor arguments. *)
Record ALSTM : Type := MkALSTM {
  d_feat : Z;
  hidden_size : Z;
  num_layers : Z;
  dropout : Q
}.

Record PortfolioOptimizer : Type := MkPortfolioOptimizer {
  model : option ALSTM;
  handler : option Alpha158
}.


Section Qlib.

(** [handler.get_feature_dim()] and [model.predict(symbols)] belong to
    Qlib. *)
Variable get_feature_dim : Alpha158 -> Z.
Variable predict : ALSTM -> list string -> result predictions.

(** [train_model(start_date, end_date)]: the optimizer afterwards and the
    outcome.  [fit_completes] tells whether [trainer.fit] returns or
    raises; the handler and the model object are assigned before it is
    called. *)
Definition train_model (self : PortfolioOptimizer) (start_date end_date : string)
    (fit_completes : bool) : PortfolioOptimizer * result unit :=
  let handler :=
    {| start_time := start_date; end_time := end_date;
       fit_start_time := start_date; fit_end_time := end_date;
       instruments := "sp500" |} in
  let model :=
    {| d_feat := get_feature_dim handler; hidden_size := 64%Z;
       num_layers := 2%Z; dropout := 1 # 10 |} in
  ({| model := Some model; handler := Some handler |},
   if fit_completes then Ok tt else Raise (ExternalError "Trainer.fit")).

(** [predict_returns(symbols)] *)
Definition predict_returns (self : PortfolioOptimizer) (symbols : list string)
  : result predictions :=
  match model self with
  | None => Raise (ValueError "Model not trained")
  | Some m => predict m symbols
  end.

End Qlib.

(** *** The allocation optimizer *)

Inductive status : Type := optimal | relaxed | fallback.

Inductive risk_tier : Type := conservative | moderate | aggressive.

Record AllocationConstraint : Type := MkConstraint {
  lower_bound : string -> Q;
  upper_bound : string -> Q;
  sector_caps : list (string * Q);
  cash_reserve_fraction : Q;
  risk_tolerance : risk_tier
}.

Record Allocation : Type := MkAllocation {
  weights : list (string * Q);
  optimizer_status : status
}.

(** Modelled from the spec: the invested weights of an Allocation, summed. *)
Definition invested (w : list (string * Q)) : Q :=
  fold_right (fun sw acc => sw.2 + acc) 0 w.

Definition tolerance : Q := 1 # 1000000.

(** Modelled from the spec: the sum invariant of section 8 -- invested
    weights equal [1 - cash_reserve_fraction] within 1e-6. *)
Definition sum_invariant (c : AllocationConstraint) (w : list (string * Q))
  : bool :=
  Qle_bool (Qabs (invested w - (1 - cash_reserve_fraction c))) tolerance.

(** Modelled from the spec: step 1 of the fallback ladder, sector caps
    widened by a fixed margin (20% of each cap, the default the design
    notes suggest). *)
Definition relax (c : AllocationConstraint) : AllocationConstraint :=
  {| lower_bound := lower_bound c;
     upper_bound := upper_bound c;
     sector_caps := List.map (fun sc => (sc.1, sc.2 * (6 # 5))) (sector_caps c);
     cash_reserve_fraction := cash_reserve_fraction c;
     risk_tolerance := risk_tolerance c |}.

(** Modelled from the spec: step 2 of the fallback ladder, every eligible
    symbol gets the same share of what is not held back as cash. *)
Definition equal_weight (c : AllocationConstraint) (eligible : list string)
  : list (string * Q) :=
  let share :=
    (1 - cash_reserve_fraction c) / inject_Z (Z.of_nat (length eligible)) in
  List.map (fun s => (s, share)) eligible.

Section Engine.

(** The constrained optimization itself -- objective, bounds and sector
    caps -- is a numerical routine the specification does not pin down:
    [solve c signals eligible] is its weight vector, or [None] when the
    problem is infeasible. *)
Variable solve :
  AllocationConstraint -> predictions -> list string ->
  option (list (string * Q)).

(** Modelled from the spec: one run of the solver; a vector that misses
    the sum invariant is never emitted. *)
Definition attempt (c : AllocationConstraint) (signals : option predictions)
    (eligible : list string) : option (list (string * Q)) :=
  match signals with
  | Some s =>
      match solve c s eligible with
      | Some w => if sum_invariant c w then Some w else None
      | None => None
      end
  | None => None
  end.

(** Modelled from the spec: [PortfolioEngine.optimize], the Allocation
    Optimizer of section 4.4, is not among the sources (only its caller,
    [PortfolioOptimizationPipeline.optimize], is).  [signals] is [None]
    when the model's signals are unavailable.  The constrained problem is
    tried as given, then once more with relaxed sector caps, then the
    equal-weight allocation over the eligible symbols is used and marked
    [fallback]; an allocation is emitted only once its weights satisfy the
    sum invariant, and a cash reserve outside [[0, 1]] is a configuration
    error. *)
Definition optimize (symbols : list string) (signals : option predictions)
    (c : AllocationConstraint) : result Allocation :=
  let eligible := remove_dups symbols in
  if negb (Qle_bool 0 (cash_reserve_fraction c)
           && Qle_bool (cash_reserve_fraction c) 1)
  then Raise OptimizationInfeasible
  else
    match attempt c signals eligible with
    | Some w => Ok {| weights := w; optimizer_status := optimal |}
    | None =>
        match attempt (relax c) signals eligible with
        | Some w => Ok {| weights := w; optimizer_status := relaxed |}
        | None =>
            let w := equal_weight c eligible in
            if sum_invariant c w
            then Ok {| weights := w; optimizer_status := fallback |}
            else Raise OptimizationInfeasible
        end
    end.

End Engine.

(** *** PortfolioOptimizationPipeline.optimize *)

Record User : Type := MkUser {
  user_risk_tolerance : risk_tier
}.

Record Quote : Type := MkQuote {
  symbol : string;
  price : Q
}.

Record PortfolioHolding : Type := MkPortfolioHolding {
  holding_symbol : string;
  weight : Q;
  predicted_return : Q
}.

Record market_context : Type := MkContext {
  sp500_change : Q;
  vix : Q;
  sector_performance : gmap string Q
}.

Record OptimizationResult : Type := MkOptimizationResult {
  allocation : Allocation;
  result_predictions : predictions;
  analysis : string;
  expected_return : Q;
  risk_metrics : gmap string Q
}.

(** The attributes of a [QlibService]: [__init__] assigns these two and
    no other. *)
Record QlibService : Type := MkQlibService {
  data_path : string;
  model_path : string
}.

(** What the pipeline holds and reaches: the market data service, the
    [QlibService] object [self.qlib] and the Qlib library behind it,
    [self.portfolio_engine], [self.llm] and the pipeline's private
    helpers.  Any call to the outside may raise. *)
Record services : Type := MkServices {
  get_batch_quotes : list string -> result (list Quote);
  get_historical_data : string -> result (list Q);
  qlib : QlibService;
  import_qlib_data : result unit;
  convert_to_qlib_format : string -> list Q -> result unit;
  qlib_train_model : result string;
  qlib_predict_returns : string -> list string -> result predictions;
  engine_optimize :
    list string -> predictions -> gmap string Q -> Q -> risk_tier ->
    option AllocationConstraint -> result Allocation;
  get_index_change : string -> result Q;
  get_vix : result Q;
  get_sector_performance : result (gmap string Q);
  analyze_portfolio :
    list PortfolioHolding -> User -> market_context -> predictions ->
    result string;
  calculate_expected_return : Allocation -> predictions -> Q;
  calculate_risk_metrics : Allocation -> gmap string (list Q) -> gmap string Q
}.

(** *** QlibService.prepare_data *)

(** [self.market_data] on a [QlibService]: the object has no such
    attribute. *)
Definition qlib_market_data (self : QlibService)
  : result (string -> result (list Q)) :=
  Raise (AttributeError "market_data").

(** The loop of [prepare_data]. *)
Fixpoint download_all (svc : services) (self : QlibService)
    (symbols : list string) : result unit :=
  match symbols with
  | [] => Ok tt
  | symbol :: rest =>
      let* market_data := qlib_market_data self in
      let* data := market_data symbol in
      let* _ := convert_to_qlib_format svc symbol data in
      download_all svc self rest
  end.

(** [prepare_data(symbols, start_date, end_date)] of the pipeline's
    [self.qlib]. *)
Definition prepare_data (svc : services) (symbols : list string)
  : result unit :=
  let* _ := import_qlib_data svc in
  download_all svc (qlib svc) symbols.

(** [allocation[symbol]] and [predictions[symbol]] *)
Fixpoint weight_of (w : list (string * Q)) (symbol : string) : result Q :=
  match w with
  | [] => Raise (KeyError symbol)
  | (s, x) :: rest => if String.eqb s symbol then Ok x else weight_of rest symbol
  end.

Definition prediction_of (p : predictions) (symbol : string) : result Q :=
  match p !! symbol with
  | Some x => Ok x
  | None => Raise (KeyError symbol)
  end.

(** The class [PortfolioOptimizationPipeline]. *)
Module Pipeline.

Section Services.

Variable svc : services.

(** Step 2: the loop filling [historical_data]. *)
Fixpoint fetch_histories (symbols : list string)
    (historical_data : gmap string (list Q)) : result (gmap string (list Q)) :=
  match symbols with
  | [] => Ok historical_data
  | s :: rest =>
      let* data := get_historical_data svc s in
      fetch_histories rest (<[s := data]> historical_data)
  end.

(** [{q.symbol: q.price for q in quotes}] *)
Definition current_prices (quotes : list Quote) : gmap string Q :=
  fold_left (fun m q => <[symbol q := price q]> m) quotes ∅.

(** The list comprehension building the holdings of step 8. *)
Fixpoint build_holdings (symbols : list string) (a : Allocation)
    (p : predictions) : result (list PortfolioHolding) :=
  match symbols with
  | [] => Ok []
  | s :: rest =>
      let* w := weight_of (weights a) s in
      let* r := prediction_of p s in
      let* holdings := build_holdings rest a p in
      Ok ({| holding_symbol := s; weight := w; predicted_return := r |}
          :: holdings)
  end.

(** Steps 1 to 4: market data, history, Qlib data, and the model. *)
Definition prepare (symbols : list string)
  : result (list Quote * gmap string (list Q) * string) :=
  let* quotes := get_batch_quotes svc symbols in
  let* historical_data := fetch_histories symbols ∅ in
  let* _ := prepare_data svc symbols in
  let* model_id := qlib_train_model svc in
  Ok (quotes, historical_data, model_id).

(** [optimize(user, symbols, investment_amount, constraints)] *)
Definition optimize (user : User) (symbols : list string)
    (investment_amount : Q) (constraints : option AllocationConstraint)
  : result OptimizationResult :=
  let* prepared := prepare symbols in
  let '(quotes, historical_data, model_id) := prepared in
  let* predictions := qlib_predict_returns svc model_id symbols in
  let* allocation :=
    engine_optimize svc symbols predictions (current_prices quotes)
      investment_amount (user_risk_tolerance user) constraints in
  let* sp500 := get_index_change svc "SPY" in
  let* vix := get_vix svc in
  let* sectors := get_sector_performance svc in
  let* holdings := build_holdings symbols allocation predictions in
  let* analysis :=
    analyze_portfolio svc holdings user
      {| sp500_change := sp500; vix := vix; sector_performance := sectors |}
      predictions in
  Ok {| allocation := allocation;
        result_predictions := predictions;
        analysis := analysis;
        expected_return := calculate_expected_return svc allocation predictions;
        risk_metrics :=
          calculate_risk_metrics svc allocation historical_data |}.

End Services.

End Pipeline.

(** *** The sum invariant of the optimizer *)

Lemma invested_constant (x : Q) (l : list string) :
  invested (List.map (fun s => (s, x)) l)
  == inject_Z (Z.of_nat (length l)) * x.
Proof.
  induction l as [|s l IH].
  - cbn. ring.
  - cbn [List.map invested fold_right length snd].
    fold (invested (List.map (fun s => (s, x)) l)). rewrite IH.
    rewrite Nat2Z.inj_succ. unfold Z.succ. rewrite inject_Z_plus. ring.
Qed.

Lemma equal_weight_invested (c : AllocationConstraint) (l : list string) :
  l <> [] -> invested (equal_weight c l) == 1 - cash_reserve_fraction c.
Proof.
  intros Hl. unfold equal_weight. rewrite invested_constant.
  field. intros H.
  assert (Hz : Z.of_nat (length l) = 0%Z).
  { apply (inject_Z_injective (Z.of_nat (length l)) 0). exact H. }
  destruct l; [congruence|]. cbn [length] in Hz. lia.
Qed.

Lemma sum_invariant_spec (c : AllocationConstraint) (w : list (string * Q)) :
  sum_invariant c w = true <->
  Qabs (invested w - (1 - cash_reserve_fraction c)) <= tolerance.
Proof. unfold sum_invariant. apply Qle_bool_iff. Qed.

Lemma equal_weight_normalized (c : AllocationConstraint) (l : list string) :
  l <> [] -> sum_invariant c (equal_weight c l) = true.
Proof.
  intros Hl. apply sum_invariant_spec.
  assert (Hz : invested (equal_weight c l) - (1 - cash_reserve_fraction c) == 0)
    by (rewrite (equal_weight_invested c l Hl); ring).
  rewrite Hz. discriminate.
Qed.

Lemma attempt_normalized solve (c : AllocationConstraint)
    (signals : option predictions) (l : list string) (w : list (string * Q)) :
  attempt solve c signals l = Some w -> sum_invariant c w = true.
Proof.
  unfold attempt. destruct signals as [s|]; [|discriminate].
  destruct (solve c s l) as [w'|]; [|discriminate].
  destruct (sum_invariant c w') eqn:E; [|discriminate].
  intros [= <-]. exact E.
Qed.

Lemma remove_dups_nonempty (l : list string) : l <> [] -> remove_dups l <> [].
Proof.
  destruct l as [|s l]; [congruence|]. intros _ H.
  assert (Hin : s ∈ remove_dups (s :: l)) by (apply elem_of_remove_dups; left).
  rewrite H in Hin. inversion Hin.
Qed.

(** Every allocation the optimizer emits satisfies the sum invariant. *)
Lemma emitted_normalized solve (symbols : list string)
    (signals : option predictions) (c : AllocationConstraint) :
  match optimize solve symbols signals c with
  | Ok a =>
      Qabs (invested (weights a) - (1 - cash_reserve_fraction c)) <= tolerance
  | Raise _ => True
  end.
Proof.
  unfold optimize.
  destruct (negb _); [exact I|].
  destruct (attempt solve c signals (remove_dups symbols)) as [w|] eqn:E1.
  { apply sum_invariant_spec, (attempt_normalized _ _ _ _ _ E1). }
  destruct (attempt solve (relax c) signals (remove_dups symbols)) as [w|] eqn:E2.
  { apply (sum_invariant_spec (relax c)), (attempt_normalized _ _ _ _ _ E2). }
  destruct (sum_invariant c (equal_weight c (remove_dups symbols))) eqn:E3;
    [|exact I].
  apply sum_invariant_spec, E3.
Qed.

(** C1: for every optimization request with a valid constraint set -- a
    cash reserve between 0 and 1 -- over at least one symbol, the
    optimizer returns an Allocation, and its invested weights sum to
    [1 - cash_reserve_fraction] within 1e-6; and whatever the request,
    no Allocation is emitted whose weights miss that sum. *)
Theorem allocation_sum_invariant
    (solve : AllocationConstraint -> predictions -> list string ->
             option (list (string * Q)))
    (symbols : list string) (signals : option predictions)
    (c : AllocationConstraint) :
  0 <= cash_reserve_fraction c -> cash_reserve_fraction c <= 1 ->
  symbols <> [] ->
  (exists a : Allocation,
      optimize solve symbols signals c = Ok a
      /\ Qabs (invested (weights a) - (1 - cash_reserve_fraction c))
         <= tolerance)
  /\ forall symbols' signals' c',
       match optimize solve symbols' signals' c' with
       | Ok a =>
           Qabs (invested (weights a) - (1 - cash_reserve_fraction c'))
           <= tolerance
       | Raise _ => True
       end.
Proof.
  intros H0 H1 Hs. split; [|intros; apply emitted_normalized].
  pose proof (emitted_normalized solve symbols signals c) as Hnorm.
  unfold optimize in *.
  apply Qle_bool_iff in H0. apply Qle_bool_iff in H1.
  rewrite H0, H1 in *. cbn [andb negb] in *.
  destruct (attempt solve c signals (remove_dups symbols)) as [w|];
    [eauto|].
  destruct (attempt solve (relax c) signals (remove_dups symbols)) as [w|];
    [eauto|].
  rewrite (equal_weight_normalized c _ (remove_dups_nonempty _ Hs)) in *.
  eauto.
Qed.

(** *** A failed prediction *)


(** For a non-empty symbol list [prepare_data] raises at its first
    iteration, whatever the library does. *)
Lemma prepare_data_raises (svc : services) (symbols : list string) :
  symbols <> [] ->
  prepare_data svc symbols
  = match import_qlib_data svc with
    | Ok _ => Raise (AttributeError "market_data")
    | Raise e => Raise e
    end.
Proof.
  intros Hs. unfold prepare_data.
  destruct (import_qlib_data svc) as [[]|e]; [|reflexivity].
  destruct symbols as [|s rest]; [congruence|]. reflexivity.
Qed.


(** For every non-empty symbol list the pipeline returns no result.  It
    raises the error of the quotes or of the histories if fetching them
    fails; otherwise [QlibService.prepare_data] reads [self.market_data],
    which no [QlibService] has, and the request ends in that
    [AttributeError]: the model is not trained, the predictions are not
    asked for and the portfolio engine is not called. *)
Theorem pipeline_stops_at_prepare_data (svc : services) (user : User)
    (symbols : list string) (investment_amount : Q)
    (constraints : option AllocationConstraint) :
  symbols <> [] ->
  Pipeline.optimize svc user symbols investment_amount constraints
  = match get_batch_quotes svc symbols with
    | Raise e => Raise e
    | Ok _ =>
        match Pipeline.fetch_histories svc symbols ∅ with
        | Raise e => Raise e
        | Ok _ =>
            match import_qlib_data svc with
            | Raise e => Raise e
            | Ok _ => Raise (AttributeError "market_data")
            end
        end
    end.
Proof.
  intros Hs. unfold Pipeline.optimize, Pipeline.prepare.
  destruct (get_batch_quotes svc symbols) as [quotes|e]; [|reflexivity].
  cbn [bind].
  destruct (Pipeline.fetch_histories svc symbols ∅) as [historical_data|e];
    [|reflexivity].
  cbn [bind]. rewrite (prepare_data_raises svc symbols Hs).
  destruct (import_qlib_data svc) as [[]|e]; reflexivity.
Qed.

(** After [train_model], completed or not, the guard of [predict_returns]
    is passed and the call goes to the model object. *)
Lemma predict_after_training get_feature_dim predict
    (self : PortfolioOptimizer) (start_date end_date : string)
    (fit_completes : bool) (symbols : list string) :
  exists m : ALSTM,
    model (train_model get_feature_dim self start_date end_date fit_completes).1
    = Some m
    /\ predict_returns predict
         (train_model get_feature_dim self start_date end_date fit_completes).1
         symbols
       = predict m symbols.
Proof. eexists. split; reflexivity. Qed.

(** *** A concrete request *)

(** A solver that finds every problem infeasible. *)
Definition no_solution (c : AllocationConstraint) (signals : predictions)
    (eligible : list string) : option (list (string * Q)) := None.

(** Bounds 0 to 40% on every asset, 5% held back as cash. *)
Definition five_percent : AllocationConstraint :=
  {| lower_bound := fun _ => 0; upper_bound := fun _ => 40 # 100;
     sector_caps := [("Technology", 60 # 100)];
     cash_reserve_fraction := 5 # 100; risk_tolerance := moderate |}.

Definition flat_predict (m : ALSTM) (symbols : list string)
  : result predictions :=
  Ok (list_to_map (List.map (fun s => (s, 2 # 100)) symbols)).

(** An outside that always answers; the portfolio engine is the
    optimizer above, run on the predictions it is handed. *)
Definition calm : services :=
  {| get_batch_quotes :=
       fun symbols => Ok (List.map (fun s => MkQuote s 100) symbols);
     get_historical_data := fun _ => Ok [100; 101];
     qlib := {| data_path := "~/.qlib/qlib_data/us_data";
                model_path := "models" |};
     import_qlib_data := Ok tt;
     convert_to_qlib_format := fun _ _ => Ok tt;
     qlib_train_model := Ok "run-1";
     qlib_predict_returns :=
       fun _ symbols => flat_predict (MkALSTM 158 64 2 (1 # 10)) symbols;
     engine_optimize :=
       fun symbols signals _ _ _ constraints =>
         match constraints with
         | Some c => optimize no_solution symbols (Some signals) c
         | None => Raise OptimizationInfeasible
         end;
     get_index_change := fun _ => Ok 0;
     get_vix := Ok 15;
     get_sector_performance := Ok ∅;
     analyze_portfolio := fun _ _ _ _ => Ok "analysis";
     calculate_expected_return := fun _ _ => 2 # 100;
     calculate_risk_metrics := fun _ _ => ∅ |}.

Definition investor : User := {| user_risk_tolerance := moderate |}.

(** Three symbols, 5% cash, no signals: the optimizer returns an
    allocation within the tolerance. *)
Lemma allocation_sum_invariant_witness :
  (0 <= cash_reserve_fraction five_percent
   /\ cash_reserve_fraction five_percent <= 1
   /\ ["A"; "B"; "C"] <> [])
  /\ exists a : Allocation,
       optimize no_solution ["A"; "B"; "C"] None five_percent = Ok a
       /\ Qabs (invested (weights a) - (1 - cash_reserve_fraction five_percent))
          <= tolerance.
Proof.
  split.
  - repeat split; discriminate.
  - refine (proj1 (allocation_sum_invariant no_solution ["A"; "B"; "C"] None
                     five_percent _ _ _)); discriminate.
Defined.




(** Three symbols with the outside answering every call. *)
Lemma pipeline_stops_at_prepare_data_witness :
  ["A"; "B"; "C"] <> []
  /\ Pipeline.optimize calm investor ["A"; "B"; "C"] 1000 (Some five_percent)
     = match get_batch_quotes calm ["A"; "B"; "C"] with
       | Raise e => Raise e
       | Ok _ =>
           match Pipeline.fetch_histories calm ["A"; "B"; "C"] ∅ with
           | Raise e => Raise e
           | Ok _ =>
               match import_qlib_data calm with
               | Raise e => Raise e
               | Ok _ => Raise (AttributeError "market_data")
               end
           end
       end.
Proof.
  split; [discriminate|].
  apply (pipeline_stops_at_prepare_data calm investor ["A"; "B"; "C"] 1000
           (Some five_percent)).
  discriminate.
Defined.

(** The history step succeeds only if every symbol's history is fetched,
    and then the dictionary holds, for each requested symbol, what the
    market data service answered for it, and nothing else is touched. *)
Theorem histories_cover_symbols (svc : services) (symbols : list string)
    (historical_data fetched : gmap string (list Q)) :
  Pipeline.fetch_histories svc symbols historical_data = Ok fetched ->
  forall s : string,
    if bool_decide (s ∈ symbols)
    then exists data, get_historical_data svc s = Ok data
                      /\ fetched !! s = Some data
    else fetched !! s = historical_data !! s.
Proof.
  revert historical_data.
  induction symbols as [|s0 rest IH]; intros acc;
    cbn [Pipeline.fetch_histories].
  - intros [= <-] s. rewrite bool_decide_eq_false_2; [reflexivity|].
    intros H. inversion H.
  - destruct (get_historical_data svc s0) as [data|] eqn:E; [|discriminate].
    cbn [bind]. intros Hrest s. specialize (IH _ Hrest s).
    destruct (decide (s ∈ rest)) as [Hin|Hout].
    + rewrite bool_decide_eq_true_2 in IH by exact Hin.
      rewrite bool_decide_eq_true_2 by (right; exact Hin). exact IH.
    + rewrite bool_decide_eq_false_2 in IH by exact Hout.
      destruct (decide (s = s0)) as [->|Hne].
      * rewrite bool_decide_eq_true_2 by left.
        exists data. split; [exact E|]. rewrite IH. apply lookup_insert_eq.
      * rewrite bool_decide_eq_false_2.
        -- rewrite IH. apply lookup_insert_ne. congruence.
        -- intros H. apply elem_of_cons in H as [H|H]; contradiction.
Qed.

Lemma histories_cover_symbols_witness :
  Pipeline.fetch_histories calm ["A"; "B"] ∅
  = Ok (<["B" := [100; 101]]> (<["A" := [100; 101]]> ∅))
  /\ forall s : string,
       if bool_decide (s ∈ ["A"; "B"])
       then exists data,
              get_historical_data calm s = Ok data
              /\ (<["B" := [100; 101]]> (<["A" := [100; 101]]> ∅)
                   : gmap string (list Q)) !! s = Some data
       else (<["B" := [100; 101]]> (<["A" := [100; 101]]> ∅)
             : gmap string (list Q)) !! s = (∅ : gmap string (list Q)) !! s.
Proof.
  assert (H : Pipeline.fetch_histories calm ["A"; "B"] ∅
              = Ok (<["B" := [100; 101]]> (<["A" := [100; 101]]> ∅)))
    by reflexivity.
  split; [exact H|].
  apply (histories_cover_symbols calm ["A"; "B"] ∅ _ H).
Defined.

Lemma current_prices_snoc (quotes : list Quote) (q : Quote) :
  Pipeline.current_prices (quotes ++ [q])
  = <[symbol q := price q]> (Pipeline.current_prices quotes).
Proof. unfold Pipeline.current_prices. rewrite fold_left_app. reflexivity. Qed.

(** The price dictionary holds, for each symbol, the price of the last
    quote of that symbol in the batch, and no price for a symbol that has
    no quote. *)
Theorem current_prices_last_wins (quotes : list Quote) (s : string) :
  Pipeline.current_prices quotes !! s
  = price <$> last (List.filter (fun q => String.eqb (symbol q) s) quotes).
Proof.
  induction quotes as [|q quotes IH] using rev_ind.
  - reflexivity.
  - rewrite current_prices_snoc, List.filter_app. cbn [List.filter].
    destruct (String.eqb_spec (symbol q) s) as [->|Hne].
    + rewrite lookup_insert_eq, last_snoc. reflexivity.
    + rewrite lookup_insert_ne by exact Hne.
      rewrite app_nil_r. exact IH.
Qed.

End Optimization.

(* ===================================================================== *)
(** ** store/authStore.js and components/ProtectedRoute.jsx *)
(* ===================================================================== *)

Module AuthStore.

Section Profile.

(** The values of a user object's fields. *)
Variable V : Type.

(** The store; [user], [token] and [refreshToken] are [None] when
    [null]. *)
Record store : Type := Store {
  user : option (gmap string V);
  token : option string;
  refreshToken : option string;
  isAuthenticated : bool;
  isLoading : bool
}.

Definition initial : store :=
  {| user := None; token := None; refreshToken := None;
     isAuthenticated := false; isLoading := false |}.

(** The actions of the store, with their arguments. *)
Inductive action : Type :=
| setUser (u : option (gmap string V))
| setTokens (t r : option string)
| login (u : option (gmap string V)) (t r : option string)
| logout
| updateUser (updates : gmap string V)
| setLoading (b : bool).

(** What an action's [set(...)] does to the store. *)
Definition apply (s : store) (a : action) : store :=
  match a with
  | setUser u =>
      {| user := u; token := token s; refreshToken := refreshToken s;
         isAuthenticated := bool_decide (is_Some u); isLoading := isLoading s |}
  | setTokens t r =>
      {| user := user s; token := t; refreshToken := r;
         isAuthenticated := isAuthenticated s; isLoading := isLoading s |}
  | login u t r =>
      {| user := u; token := t; refreshToken := r;
         isAuthenticated := true; isLoading := isLoading s |}
  | logout =>
      {| user := None; token := None; refreshToken := None;
         isAuthenticated := false; isLoading := isLoading s |}
  | updateUser updates =>
      {| user := match user s with
                 | Some u => Some (updates ∪ u)
                 | None => None
                 end;
         token := token s; refreshToken := refreshToken s;
         isAuthenticated := isAuthenticated s; isLoading := isLoading s |}
  | setLoading b =>
      {| user := user s; token := token s; refreshToken := refreshToken s;
         isAuthenticated := isAuthenticated s; isLoading := b |}
  end.

Definition run (s : store) (actions : list action) : store :=
  fold_left apply actions s.

(** An action that is not a [login] without a user object. *)
Definition carries_user (a : action) : bool :=
  match a with
  | login None _ _ => false
  | _ => true
  end.

(** [isAuthenticated] says that a user object is present. *)
Definition consistent (s : store) : Prop :=
  isAuthenticated s = true <-> is_Some (user s).

Lemma apply_consistent (s : store) (a : action) :
  carries_user a = true -> consistent s -> consistent (apply s a).
Proof.
  unfold consistent. intros Hc [H1 H2].
  destruct a as [u|t r|u t r| |updates|b]; cbn [apply user isAuthenticated].
  - rewrite bool_decide_eq_true. reflexivity.
  - split; assumption.
  - destruct u as [u|]; [|discriminate Hc]. split; eauto.
  - split; [discriminate|]. intros [x Hx]. discriminate Hx.
  - destruct (user s) as [u|].
    + split; eauto.
    + split; [|intros [x Hx]; discriminate Hx].
      intros H. destruct (H1 H) as [x Hx]. discriminate Hx.
  - split; assumption.
Qed.

Lemma run_consistent (actions : list action) :
  Forall (fun a => carries_user a = true) actions ->
  consistent (run initial actions).
Proof.
  intros Hall.
  assert (H : forall s, consistent s -> consistent (run s actions)).
  { induction Hall as [|a rest Ha _ IH]; intros s Hs; [exact Hs|].
    cbn [run fold_left]. apply IH, apply_consistent; assumption. }
  apply (H initial). unfold consistent. cbn.
  split; [discriminate|]. intros [x Hx]. discriminate Hx.
Qed.

(** As long as every [login] is given a user object, [isAuthenticated]
    holds exactly when a user object is in the store, after any sequence
    of actions. *)
Theorem authenticated_iff_user (actions : list action) :
  Forall (fun a => carries_user a = true) actions ->
  isAuthenticated (run initial actions) = true
  <-> is_Some (user (run initial actions)).
Proof. exact (run_consistent actions). Qed.

(** [updateUser] merges: after it, a field named in the update has the
    update's value and every other field its old one; a store without a
    user stays without one; and two updates in a row are one update with
    the later one taking precedence. *)
Theorem updateUser_merges (s : store) (first second : gmap string V) :
  user (apply s (updateUser first))
  = (fun u => first ∪ u) <$> user s
  /\ (forall (u : gmap string V) (k : string),
        user s = Some u ->
        exists u', user (apply s (updateUser first)) = Some u'
                   /\ u' !! k = match first !! k with
                                | Some v => Some v
                                | None => u !! k
                                end)
  /\ apply (apply s (updateUser first)) (updateUser second)
     = apply s (updateUser (second ∪ first)).
Proof.
  split; [|split].
  - cbn [apply user]. destruct (user s); reflexivity.
  - intros u k Hu. cbn [apply user]. rewrite Hu. eexists. split; [reflexivity|].
    rewrite lookup_union. destruct (first !! k), (u !! k); reflexivity.
  - cbn [apply user token refreshToken isAuthenticated isLoading].
    destruct (user s) as [u|]; [|reflexivity].
    rewrite (assoc_L (∪)). reflexivity.
Qed.

End Profile.

Arguments initial {V}.
Arguments setUser {V} u.
Arguments setTokens {V} t r.
Arguments login {V} u t r.
Arguments logout {V}.
Arguments updateUser {V} updates.
Arguments setLoading {V} b.

(** A session: login, a profile update, a token refresh. *)
Lemma authenticated_iff_user_witness :
  Forall (fun a => carries_user string a = true)
    [login (Some {["email" := "a@b.c"]}) (Some "t1") (Some "r1");
     updateUser {["name" := "Ann"]};
     setTokens (Some "t2") (Some "r2")]
  /\ (isAuthenticated string
        (run string initial
           [login (Some {["email" := "a@b.c"]}) (Some "t1") (Some "r1");
            updateUser {["name" := "Ann"]};
            setTokens (Some "t2") (Some "r2")]) = true
      <-> is_Some
            (user string
               (run string initial
                  [login (Some {["email" := "a@b.c"]}) (Some "t1") (Some "r1");
                   updateUser {["name" := "Ann"]};
                   setTokens (Some "t2") (Some "r2")]))).
Proof.
  assert (H : Forall (fun a => carries_user string a = true)
                [login (Some {["email" := "a@b.c"]}) (Some "t1") (Some "r1");
                 updateUser {["name" := "Ann"]};
                 setTokens (Some "t2") (Some "r2")])
    by (repeat constructor).
  split; [exact H|].
  apply (authenticated_iff_user string _ H).
Defined.

(** A [login] without a user object leaves the store authenticated with
    nobody in it. *)
Example login_without_user :
  isAuthenticated string
    (run string initial [login None (Some "t1") (Some "r1")]) = true
  /\ user string (run string initial [login None (Some "t1") (Some "r1")])
     = None.
Proof. split; reflexivity. Qed.

End AuthStore.

Module ProtectedRoute.
Import AuthStore.

(** What the component renders. *)
Inductive view : Type :=
| Spinner
| Navigate (to : string) (from : string)
| Children.

(** [ProtectedRoute], at the location [from]. *)
Definition ProtectedRoute {V} (s : store V) (from : string) : view :=
  if isLoading V s then Spinner
  else if negb (isAuthenticated V s) then Navigate "/login" from
  else Children.

(** The children of a protected route are rendered only for a store that
    holds a user object and is not loading -- provided every [login] was
    given one; right after a [logout] they never are. *)
Theorem children_need_user {V} (actions : list (action V)) (from : string) :
  Forall (fun a => carries_user V a = true) actions ->
  ProtectedRoute (run V initial actions) from = Children ->
  is_Some (user V (run V initial actions))
  /\ isLoading V (run V initial actions) = false
  /\ ProtectedRoute (run V initial (actions ++ [logout])) from
     = Navigate "/login" from.
Proof.
  intros Hall Hview.
  pose proof (run_consistent V actions Hall) as Hiff. unfold consistent in Hiff.
  assert (Hout : run V initial (actions ++ [logout])
                 = apply V (run V initial actions) logout).
  { unfold run. rewrite fold_left_app. reflexivity. }
  rewrite Hout. unfold ProtectedRoute in *.
  cbn [apply isLoading isAuthenticated].
  destruct (isLoading V (run V initial actions)); [discriminate|].
  destruct (isAuthenticated V (run V initial actions)); [|discriminate].
  split; [apply Hiff; reflexivity|]. split; reflexivity.
Qed.

Lemma children_need_user_witness :
  (Forall (fun a => carries_user string a = true)
     [login (Some {["email" := "a@b.c"]}) (Some "t1") (Some "r1")]
   /\ ProtectedRoute
        (run string initial
           [login (Some {["email" := "a@b.c"]}) (Some "t1") (Some "r1")])
        "/dashboard" = Children)
  /\ is_Some
       (user string
          (run string initial
             [login (Some {["email" := "a@b.c"]}) (Some "t1") (Some "r1")]))
  /\ isLoading string
       (run string initial
          [login (Some {["email" := "a@b.c"]}) (Some "t1") (Some "r1")])
     = false
  /\ ProtectedRoute
       (run string initial
          ([login (Some {["email" := "a@b.c"]}) (Some "t1") (Some "r1")]
           ++ [logout]))
       "/dashboard"
     = Navigate "/login" "/dashboard".
Proof.
  assert (H : Forall (fun a => carries_user string a = true)
                [login (Some {["email" := "a@b.c"]}) (Some "t1") (Some "r1")])
    by (repeat constructor).
  split; [split; [exact H | reflexivity]|].
  apply (children_need_user
           [login (Some {["email" := "a@b.c"]}) (Some "t1") (Some "r1")]
           "/dashboard" H).
  reflexivity.
Defined.

End ProtectedRoute.

(* ===================================================================== *)
(** ** services/api.js: the interceptors of the axios instance *)
(* ===================================================================== *)

Module ApiClient.
Import AuthStore.

(** The part of a request's config the interceptors read and write. *)
Record config : Type := Config {
  url : string;
  Authorization : option string;
  _retry : bool
}.

(** What the transport answers: a response, or an error whose
    [error.response?.status] is [status] ([None] without a response). *)
Inductive response : Type :=
| Success (data : string)
| Failure (status : option nat).

(** What [axios.post(.../auth/refresh)] gives: a rejection (or a body
    that cannot be destructured), or the two fields of the body. *)
Inductive refreshed : Type :=
| RefreshFailed
| RefreshData (access_token refresh_token : option string).

Inductive effect : Type :=
| Send (n : nat) (c : config)
| Refresh (rt : string)
| Redirect (href : string).

(** How the promise of [api(config)] settles; [Pending] when the model
    runs out of fuel. *)
Inductive outcome : Type :=
| Resolved (data : string)
| Rejected (e : response)
| RejectedRefresh
| Pending.

(** A string that is neither null nor empty. *)
Definition truthy (t : option string) : bool :=
  match t with
  | Some s => negb (String.eqb s "")
  | None => false
  end.

Definition unauthorized (e : response) : bool :=
  match e with
  | Failure (Some status) => Nat.eqb status 401
  | _ => false
  end.

Section Client.

Variable V : Type.

(** The answer to the [n]-th request sent through the instance. *)
Variable server : nat -> config -> response.

(** The refresh endpoint, called with the refresh token. *)
Variable refresh : string -> refreshed.

(** The text of [`${t}`]. *)
Variable interpolate : option string -> string.

Definition bearer (t : option string) : string :=
  String.append "Bearer " (interpolate t).

(** The request interceptor. *)
Definition on_request (st : store V) (c : config) : config :=
  if truthy (token V st)
  then {| url := url c; Authorization := Some (bearer (token V st));
          _retry := _retry c |}
  else c.

Definition retried (c : config) (access_token : option string) : config :=
  {| url := url c; Authorization := Some (bearer access_token);
     _retry := true |}.

(** [api(config)]: the request interceptor, the transport, and the
    response interceptor, which may call [api] again. *)
Fixpoint api (fuel : nat) (st : store V) (n : nat) (c : config)
  : outcome * store V * list effect :=
  match fuel with
  | O => (Pending, st, [])
  | S fuel =>
      let sent := on_request st c in
      match server n sent with
      | Success data => (Resolved data, st, [Send n sent])
      | Failure status =>
          if unauthorized (Failure status) && negb (_retry sent)
          then
            if truthy (refreshToken V st)
            then
              match refreshToken V st with
              | Some rt =>
                  match refresh rt with
                  | RefreshData access_token refresh_token =>
                      let st' :=
                        apply V st (setTokens access_token refresh_token) in
                      let '(o, st'', log) :=
                        api fuel st' (S n) (retried sent access_token) in
                      (o, st'', Send n sent :: Refresh rt :: log)
                  | RefreshFailed =>
                      (RejectedRefresh, apply V st logout,
                       [Send n sent; Refresh rt; Redirect "/login"])
                  end
              | None => (Rejected (Failure status), st, [Send n sent])
              end
            else (Rejected (Failure status), st, [Send n sent])
          else (Rejected (Failure status), st, [Send n sent])
      end
  end.

Definition sends (log : list effect) : list config :=
  omap (fun e => match e with Send _ c => Some c | _ => None end) log.

Definition refreshes (log : list effect) : list string :=
  omap (fun e => match e with Refresh rt => Some rt | _ => None end) log.

Definition settle (e : response) : outcome :=
  match e with
  | Success data => Resolved data
  | Failure status => Rejected (Failure status)
  end.

Lemma on_request_retry (st : store V) (c : config) :
  _retry (on_request st c) = _retry c.
Proof. unfold on_request. destruct (truthy (token V st)); reflexivity. Qed.

Lemma api_unfold (fuel : nat) (st : store V) (n : nat) (c : config) :
  api (S fuel) st n c
  = let sent := on_request st c in
    match server n sent with
    | Success data => (Resolved data, st, [Send n sent])
    | Failure status =>
        if unauthorized (Failure status) && negb (_retry sent)
        then
          if truthy (refreshToken V st)
          then
            match refreshToken V st with
            | Some rt =>
                match refresh rt with
                | RefreshData access_token refresh_token =>
                    let st' :=
                      apply V st (setTokens access_token refresh_token) in
                    let '(o, st'', log) :=
                      api fuel st' (S n) (retried sent access_token) in
                    (o, st'', Send n sent :: Refresh rt :: log)
                | RefreshFailed =>
                    (RejectedRefresh, apply V st logout,
                     [Send n sent; Refresh rt; Redirect "/login"])
                end
            | None => (Rejected (Failure status), st, [Send n sent])
            end
          else (Rejected (Failure status), st, [Send n sent])
        else (Rejected (Failure status), st, [Send n sent])
    end.
Proof. reflexivity. Qed.

Lemma api_retried (fuel : nat) (st : store V) (n : nat) (c : config)
    (t : option string) :
  api (S fuel) st n (retried c t)
  = (settle (server n (on_request st (retried c t))), st,
     [Send n (on_request st (retried c t))]).
Proof.
  cbn [api].
  destruct (server n (on_request st (retried c t))) as [data|status];
    [reflexivity|].
  rewrite on_request_retry. cbn [retried _retry negb].
  rewrite andb_false_r. reflexivity.
Qed.

(** A call of [api] settles after at most two requests and at most one
    call of the refresh endpoint, whatever the server answers: the
    retried request is marked and is not retried again. *)
Theorem at_most_one_refresh (extra : nat) (st : store V) (c : config) :
  let '(o, _, log) := api (2 + extra) st 0 c in
  o <> Pending
  /\ (length (sends log) <= 2)%nat
  /\ (length (refreshes log) <= 1)%nat
  /\ api (2 + extra) st 0 c = api 2 st 0 c.
Proof.
  change (2 + extra)%nat with (S (S extra)).
  rewrite (api_unfold (S extra)), (api_unfold 1). cbv zeta.
  destruct (server 0%nat (on_request st c)) as [data|status].
  { repeat split; cbn; try lia. discriminate. }
  destruct (unauthorized (Failure status) && negb (_retry (on_request st c))).
  2:{ repeat split; cbn; try lia. discriminate. }
  destruct (truthy (refreshToken V st)).
  2:{ repeat split; cbn; try lia. discriminate. }
  destruct (refreshToken V st) as [rt|].
  2:{ repeat split; cbn; try lia. discriminate. }
  destruct (refresh rt) as [|a r].
  { repeat split; cbn; try lia. discriminate. }
  rewrite (api_retried extra), (api_retried 0).
  destruct (server 1%nat _) as [data|status'];
    repeat split; cbn; try lia; discriminate.
Qed.

(** The store after a call of [api] whose request is not yet marked as
    retried: it is unchanged and nothing was refreshed; or the refresh
    succeeded, the store holds the new tokens, the request was sent once
    more carrying the new access token, and the promise settles as that
    second request does -- the user stays logged in even when it fails;
    or the refresh failed, the user is logged out, the page is sent to
    /login and the promise rejects. *)
Theorem logout_only_when_refresh_fails (st : store V) (c : config) :
  let sent := on_request st c in
  let '(o, st', log) := api 2 st 0 c in
  (st' = st /\ log = [Send 0 sent] /\ o = settle (server 0%nat sent))
  \/ (exists rt a r,
        refreshToken V st = Some rt /\ refresh rt = RefreshData a r
        /\ st' = apply V st (setTokens a r)
        /\ user V st' = user V st
        /\ isAuthenticated V st' = isAuthenticated V st
        /\ (exists again,
              log = [Send 0 sent; Refresh rt; Send 1 again]
              /\ _retry again = true
              /\ (truthy a = true -> Authorization again = Some (bearer a))
              /\ o = settle (server 1%nat again)))
  \/ (exists rt,
        refreshToken V st = Some rt /\ refresh rt = RefreshFailed
        /\ st' = apply V st logout
        /\ log = [Send 0 sent; Refresh rt; Redirect "/login"]
        /\ o = RejectedRefresh).
Proof.
  cbv zeta. rewrite (api_unfold 1). cbv zeta.
  destruct (server 0%nat (on_request st c)) as [data|status] eqn:E0.
  { left. repeat split. }
  destruct (unauthorized (Failure status) && negb (_retry (on_request st c))).
  2:{ left. repeat split. }
  destruct (truthy (refreshToken V st)).
  2:{ left. repeat split. }
  destruct (refreshToken V st) as [rt|] eqn:Ert.
  2:{ left. repeat split. }
  destruct (refresh rt) as [|a r] eqn:Er.
  { right. right. exists rt. repeat split. exact Er. }
  rewrite (api_retried 0).
  right. left. exists rt, a, r.
  set (st' := apply V st (setTokens a r)).
  set (again := on_request st' (retried (on_request st c) a)).
  assert (Hretry : _retry again = true).
  { unfold again. rewrite on_request_retry. reflexivity. }
  assert (Hauth : truthy a = true -> Authorization again = Some (bearer a)).
  { intros Ha. unfold again, on_request. subst st'.
    cbn [apply token]. rewrite Ha. reflexivity. }
  split; [reflexivity|]. split; [exact Er|]. repeat split.
  exists again. repeat split; assumption.
Qed.


End Client.

(** A server that rejects the old token and accepts the new one. *)
Definition expects (good : string) (n : nat) (c : config) : response :=
  match Authorization c with
  | Some h => if String.eqb h (String.append "Bearer " good)
              then Success "ok" else Failure (Some 401%nat)
  | None => Failure (Some 401%nat)
  end.

Definition text (t : option string) : string :=
  match t with Some s => s | None => "undefined" end.

Definition session : store string :=
  {| user := Some {["email" := "a@b.c"]}; token := Some "old";
     refreshToken := Some "r1"; isAuthenticated := true;
     isLoading := false |}.

(** An expired token is refreshed once and the request then succeeds. *)
Example expired_token_refreshed :
  api string (expects "new")
    (fun _ => RefreshData (Some "new") (Some "r2")) text 2 session 0
    {| url := "/portfolios"; Authorization := None; _retry := false |}
  = (Resolved "ok",
     apply string session (setTokens (Some "new") (Some "r2")),
     [Send 0 {| url := "/portfolios"; Authorization := Some "Bearer old";
                _retry := false |};
      Refresh "r1";
      Send 1 {| url := "/portfolios"; Authorization := Some "Bearer new";
                _retry := true |}]).
Proof. reflexivity. Qed.

End ApiClient.

(* ===================================================================== *)
(** ** pages/Register.jsx: the submit handler *)
(* ===================================================================== *)

Module Register.
Import AuthStore.

Record formData : Type := FormData {
  full_name : string;
  email : string;
  password : string;
  confirmPassword : string;
  risk_tolerance : string;
  investment_horizon : float
}.

(** [registerData]: the form without [confirmPassword]. *)
Record registerData : Type := RegisterData {
  data_full_name : string;
  data_email : string;
  data_password : string;
  data_risk_tolerance : string;
  data_investment_horizon : float
}.

(** The three places the handler looks for a message in a caught error:
    [error.response?.data?.detail], [error.response?.data?.message] and
    [error.message]. *)
Record error : Type := Error {
  detail : option string;
  response_message : option string;
  message : option string
}.

(** What the handler does besides setting state; [Api] is an effect of
    the api instance the request goes through. *)
Inductive effect : Type :=
| Api (e : ApiClient.effect)
| ToastError (text : string)
| ToastSuccess (text : string)
| ConsoleError (text : string)
| NavigateTo (path : string).

(** [a || b], for a string [a] that may be absent. *)
Definition or_else (a : option string) (b : string) : string :=
  match a with
  | Some s => if String.eqb s "" then b else s
  | None => b
  end.

Definition errorMessage (e : error) : string :=
  or_else (detail e)
    (or_else (response_message e)
       (or_else (message e) "Registration failed. Please try again.")).

(** The config of [api.post('/auth/register', registerData)] as it
    reaches the interceptors. *)
Definition request : ApiClient.config :=
  {| ApiClient.url := "/auth/register"; ApiClient.Authorization := None;
     ApiClient._retry := false |}.

Section Handler.

(** The server's answers to a registration, by the data posted. *)
Variable server : registerData -> nat -> ApiClient.config -> ApiClient.response.
Variable refresh : string -> ApiClient.refreshed.
Variable interpolate : option string -> string.

(** The object axios parsed from the text of a response, its fields read
    as text; [None] when the response has no body. *)
Variable body : string -> option (gmap string string).

(** What a rejection of the request carries. *)
Variable rejection : ApiClient.outcome -> error.

(** The [TypeError] thrown when a response without a body is
    destructured. *)
Variable type_error : error.

(** [authApi.register(registerData)]: a request through the api
    instance, with its interceptors. *)
Definition register (data : registerData) (st : store string)
  : ApiClient.outcome * store string * list ApiClient.effect :=
  ApiClient.api string (server data) refresh interpolate 2 st 0 request.

Definition caught (st : store string) (done : list ApiClient.effect)
    (e : error) : store string * bool * list effect :=
  (st, false,
   List.map Api done
   ++ [ConsoleError "Registration error:"; ToastError (errorMessage e)]).

Definition registerData_of (form : formData) : registerData :=
  {| data_full_name := full_name form; data_email := email form;
     data_password := password form;
     data_risk_tolerance := risk_tolerance form;
     data_investment_horizon := investment_horizon form |}.

(** [handleSubmit]: the store, the component's [isLoading] and the
    effects, given the component's [isLoading] before. *)
Definition handleSubmit (form : formData) (isLoading : bool)
    (st : store string) : store string * bool * list effect :=
  if negb (String.eqb (password form) (confirmPassword form))
  then (st, isLoading, [ToastError "Passwords do not match"])
  else
    let '(response, st1, done) := register (registerData_of form) st in
    match response with
    | ApiClient.Resolved text =>
        match body text with
        | Some data =>
            (apply string st1
               (login (Some data) (data !! "access_token")
                  (data !! "refresh_token")),
             false,
             List.map Api done
             ++ [ToastSuccess "Account created successfully!";
                 NavigateTo "/dashboard"])
        | None => caught st1 done type_error
        end
    | rejected => caught st1 done (rejection rejected)
    end.









End Handler.

End Register.
